(** * LarccEnv: pose validation, goal sampling and reward shaping

    A shallow embedding of [model_training/larcc_env/base_env.py].

    Conventions of the embedding:
    - a Python / NumPy float is read as a real number (IEEE rounding, NaN and
      signed zeros are outside the model);
    - a one-dimensional NumPy array of unknown length is a [list R]; the
      arrays whose shape is fixed by a literal are records ([array3],
      [array4], [array4x4]);
    - a Python exception is a [Raise] in the [result] type;
    - the mutable attributes of [self] are threaded explicitly: a method that
      writes to [self] returns the new object next to its value;
    - the functions imported from [utils] are parameters of the embedding
      ([Section env]); module [utils] gives the model of them that the
      specification describes;
    - the simulator behind [self.model] and [self.data] is an interface
      ([Simulator]); what a statement needs of it is a hypothesis. *)

From Stdlib Require Import Reals Lra List ZArith Bool Lia.
From Stdlib Require String.
Import String.StringSyntax.
Import ListNotations.
Open Scope R_scope.
Delimit Scope string_scope with string.

(** ** Python builtins *)

Module py.

Inductive exn : Type :=
| IndexError
| ValueError.

Inductive result (A : Type) : Type :=
| Ok (a : A)
| Raise (e : exn).

Arguments Ok {A} a.
Arguments Raise {A} e.

Definition bind {A B : Type} (m : result A) (k : A -> result B) : result B :=
  match m with
  | Ok a => k a
  | Raise e => Raise e
  end.

(** [x < y], [x > y] and [x >= y] on floats. *)
Definition lt (x y : R) : bool := if Rlt_dec x y then true else false.
Definition gt (x y : R) : bool := if Rgt_dec x y then true else false.
Definition ge (x y : R) : bool := if Rge_dec x y then true else false.

(** [max(a, b)]: the first argument is kept unless the second is strictly
    greater. *)
Definition max (a b : R) : R := if gt b a then b else a.

(** [l[i]] for a non-negative literal index. *)
Definition getitem {A : Type} (l : list A) (i : nat) : result A :=
  match nth_error l i with
  | Some v => Ok v
  | None => Raise IndexError
  end.

(** [l[-1]]. *)
Definition getitem_last {A : Type} (l : list A) : result A :=
  match l with
  | [] => Raise IndexError
  | _ :: _ => getitem l (length l - 1)
  end.

(** [l[i:]] and [l[:i]]. *)
Definition slice_from (i : nat) (l : list R) : list R := skipn i l.
Definition slice_to (i : nat) (l : list R) : list R := firstn i l.

(** [a, b, c, d = l]. *)
Definition unpack4 (l : list R) : result (R * R * R * R) :=
  match l with
  | [a; b; c; d] => Ok (a, b, c, d)
  | _ => Raise ValueError
  end.

End py.

Import py.

Declare Scope py_scope.
Delimit Scope py_scope with py.
Notation "x <- m ;; k" := (py.bind m (fun x => k))
  (at level 61, m at next level, right associativity) : py_scope.
Notation "' p <- m ;; k" := (py.bind m (fun p => k))
  (at level 61, p pattern, m at next level, right associativity) : py_scope.
Open Scope py_scope.

(** ** NumPy *)

Module np.

Definition ndarray : Type := list R.

Record array3 : Type := Array3 { a3_0 : R; a3_1 : R; a3_2 : R }.
Record array4 : Type := Array4 { a4_0 : R; a4_1 : R; a4_2 : R; a4_3 : R }.
Record array4x4 : Type :=
  Array4x4 { row0 : array4; row1 : array4; row2 : array4; row3 : array4 }.

Definition pi : R := PI.
Definition sin (x : R) : R := Rtrigo_def.sin x.

(** [np.clip(x, lo, hi)] is [minimum(maximum(x, lo), hi)]. *)
Definition clip (x lo hi : R) : R := Rmin (Rmax x lo) hi.

(** [-a] on an array. *)
Definition neg (a : ndarray) : ndarray := map Ropp a.

(** [np.dot(a, b)] on two one-dimensional arrays: the sum of the products,
    a [ValueError] when the lengths differ. *)
Fixpoint dot (a b : ndarray) : result R :=
  match a, b with
  | [], [] => Ok 0
  | x :: a', y :: b' => s <- dot a' b' ;; Ok (x * y + s)
  | _, _ => Raise ValueError
  end.

Definition dot4 (r v : array4) : R :=
  a4_0 r * a4_0 v + a4_1 r * a4_1 v + a4_2 r * a4_2 v + a4_3 r * a4_3 v.

(** [np.dot(m, v)] for a 4x4 matrix and a vector of 4. *)
Definition dot_mv (m : array4x4) (v : array4) : array4 :=
  Array4 (dot4 (row0 m) v) (dot4 (row1 m) v) (dot4 (row2 m) v) (dot4 (row3 m) v).

(** [np.concatenate((a, b))] for a vector of 3 and a vector of 4. *)
Definition concatenate (a : array3) (b : array4) : ndarray :=
  [a3_0 a; a3_1 a; a3_2 a; a4_0 b; a4_1 b; a4_2 b; a4_3 b].

(** [np.zeros(n)]. *)
Definition zeros (n : nat) : ndarray := repeat 0 n.

(** [a + b] on two one-dimensional arrays: element by element when the
    lengths agree, an array of length 1 is broadcast, and any other pair of
    lengths is a [ValueError]. *)
Definition add (a b : ndarray) : result ndarray :=
  if (length a =? length b)%nat then Ok (map (fun p => fst p + snd p) (combine a b))
  else match a, b with
       | [x], _ => Ok (map (fun y => x + y) b)
       | _, [y] => Ok (map (fun x => x + y) a)
       | _, _ => Raise ValueError
       end.

(** [np.clip(a, lo, hi)] on an array. *)
Definition clip_array (a : ndarray) (lo hi : R) : ndarray := map (fun x => clip x lo hi) a.

(** [a[:i] *= k] and [a[i:] *= k]. *)
Definition imul_slice_to (i : nat) (k : R) (a : ndarray) : ndarray :=
  map (fun x => x * k) (firstn i a) ++ skipn i a.
Definition imul_slice_from (i : nat) (k : R) (a : ndarray) : ndarray :=
  firstn i a ++ map (fun x => x * k) (skipn i a).

End np.

(** ** The [random] module

    [random.uniform(a, b)] is [a + (b - a) * random()]; the outcome [u] of
    [random()], a number of [[0, 1)], is an argument. *)

Module random.

Definition uniform (a b u : R) : R := a + (b - a) * u.

End random.

(** ** The helpers of [utils], as the specification describes them *)

Module utils.

Import np.

(** Modelled from the spec: [utils.point_distance] is not in the sources; the
    specification gives it as the Euclidean norm of the difference of two
    points. *)
Definition point_distance (a b : ndarray) : R :=
  sqrt (fold_right Rplus 0 (map (fun p => (fst p - snd p) * (fst p - snd p)) (combine a b))).

(** Modelled from the spec: [utils.quaternion_to_transformation_matrix] is not
    in the sources; the specification gives it as the homogeneous rotation
    matrix of the quaternion (w, x, y, z). *)
Definition quaternion_to_transformation_matrix (q : array4) : array4x4 :=
  let w := a4_0 q in
  let x := a4_1 q in
  let y := a4_2 q in
  let z := a4_3 q in
  Array4x4
    (Array4 (1 - 2 * (y * y + z * z)) (2 * (x * y - w * z)) (2 * (x * z + w * y)) 0)
    (Array4 (2 * (x * y + w * z)) (1 - 2 * (x * x + z * z)) (2 * (y * z - w * x)) 0)
    (Array4 (2 * (x * z - w * y)) (2 * (y * z + w * x)) (1 - 2 * (x * x + y * y)) 0)
    (Array4 0 0 0 1).

(** Modelled from the spec: [utils.euler_to_quaternion] is not in the
    sources; the specification gives it as the standard ZYX composition of
    roll, pitch and yaw. *)
Definition euler_to_quaternion (roll pitch yaw : R) : array4 :=
  let cr := cos (roll / 2) in
  let sr := Rtrigo_def.sin (roll / 2) in
  let cp := cos (pitch / 2) in
  let sp := Rtrigo_def.sin (pitch / 2) in
  let cy := cos (yaw / 2) in
  let sy := Rtrigo_def.sin (yaw / 2) in
  Array4 (cr * cp * cy + sr * sp * sy)
         (sr * cp * cy - cr * sp * sy)
         (cr * sp * cy + sr * cp * sy)
         (cr * cp * sy - sr * sp * cy).

End utils.

(** ** The environment object *)

Import np.

(** The attributes of [self] that [LarccEnv] itself reads or writes. The
    simulator state held by the base class is not part of the record. *)
Record LarccEnv : Type := mkLarccEnv {
  random_start : bool;
  distance_threshold : R;
  kp : R;
  ko : R;
  pos_rewards : list R;
  quat_rewards : list R;
  bonus_rewards : list Z;
  table_pos : array3;
  table_size : array3;
  goal : ndarray
}.

(** [LarccEnv.__init__]; the goal is empty until one is set. *)
Definition __init__ (random_start : bool) (distance_threshold kp ko : R) : LarccEnv :=
  {| random_start := random_start;
     distance_threshold := distance_threshold;
     kp := kp;
     ko := ko;
     pos_rewards := [];
     quat_rewards := [];
     bonus_rewards := [];
     table_pos := Array3 0.1 0.16 0.38;
     table_size := Array3 1.2 0.68 0.76;
     goal := [] |}.

(** [self.pos_rewards.append(v)] and its two siblings. *)
Definition append_pos_reward (self : LarccEnv) (v : R) : LarccEnv :=
  {| random_start := random_start self;
     distance_threshold := distance_threshold self;
     kp := kp self;
     ko := ko self;
     pos_rewards := pos_rewards self ++ [v];
     quat_rewards := quat_rewards self;
     bonus_rewards := bonus_rewards self;
     table_pos := table_pos self;
     table_size := table_size self;
     goal := goal self |}.

Definition append_quat_reward (self : LarccEnv) (v : R) : LarccEnv :=
  {| random_start := random_start self;
     distance_threshold := distance_threshold self;
     kp := kp self;
     ko := ko self;
     pos_rewards := pos_rewards self;
     quat_rewards := quat_rewards self ++ [v];
     bonus_rewards := bonus_rewards self;
     table_pos := table_pos self;
     table_size := table_size self;
     goal := goal self |}.

Definition append_bonus_reward (self : LarccEnv) (v : Z) : LarccEnv :=
  {| random_start := random_start self;
     distance_threshold := distance_threshold self;
     kp := kp self;
     ko := ko self;
     pos_rewards := pos_rewards self;
     quat_rewards := quat_rewards self;
     bonus_rewards := bonus_rewards self ++ [v];
     table_pos := table_pos self;
     table_size := table_size self;
     goal := goal self |}.

(** [self.goal = goal]; the rest of [set_goal] moves the target body of the
    simulator. *)
Definition set_goal (self : LarccEnv) (g : ndarray) : LarccEnv :=
  {| random_start := random_start self;
     distance_threshold := distance_threshold self;
     kp := kp self;
     ko := ko self;
     pos_rewards := pos_rewards self;
     quat_rewards := quat_rewards self;
     bonus_rewards := bonus_rewards self;
     table_pos := table_pos self;
     table_size := table_size self;
     goal := g |}.

Section env.

(** The functions imported from [utils]. [random_euler_angles] draws from the
    random generator: its successive outcomes are an argument of
    [_sample_goal]. *)
Variable point_distance : ndarray -> ndarray -> R.
Variable quaternion_to_transformation_matrix : array4 -> array4x4.
Variable euler_to_quaternion : R -> R -> R -> array4.

(** The world z-axis of a quaternion: [np.dot(tf, np.array([0, 0, 1, 0]))]. *)
Definition z_axis_of (q : array4) : array4 :=
  dot_mv (quaternion_to_transformation_matrix q) (Array4 0 0 1 0).

(** [LarccEnv.validate_initial_qpos]. *)
Definition validate_initial_qpos (self : LarccEnv) (qpos : ndarray) : result bool :=
  if negb (length qpos =? 7)%nat then Ok false else
  q0 <- getitem qpos 0 ;;
  if lt q0 (a3_0 (table_pos self) - a3_0 (table_size self) / 2 + 0.1)
     || gt q0 (a3_0 (table_pos self) + a3_0 (table_size self) / 2 - 0.1)
  then Ok false else
  q1 <- getitem qpos 1 ;;
  if lt q1 (a3_1 (table_pos self) - a3_1 (table_size self) / 2)
     || gt q1 (a3_1 (table_pos self) + a3_1 (table_size self) / 2 - 0.1)
  then Ok false else
  q2 <- getitem qpos 2 ;;
  if lt q2 (a3_2 (table_pos self) + a3_2 (table_size self) / 2 + 0.1)
     || gt q2 (a3_2 (table_pos self) + a3_2 (table_size self) / 2 + 0.6)
  then Ok false else
  ' (w, x, y, z) <- unpack4 (slice_from 3 qpos) ;;
  let tf := quaternion_to_transformation_matrix (Array4 w x y z) in
  let z_axis := dot_mv tf (Array4 0 0 1 0) in
  if ge (a4_2 z_axis) (np.sin (- np.pi / 6)) || ge (a4_1 z_axis) (- np.sin (np.pi / 4))
  then Ok true
  else Ok false.

(** [LarccEnv.compute_reward]: the value returned (or the exception raised)
    and the object after the call. *)
Definition compute_reward {Info : Type} (self : LarccEnv)
    (achieved_goal goal : ndarray) (info : Info) : result R * LarccEnv :=
  let pos_error := point_distance (slice_to 3 goal) (slice_to 3 achieved_goal) in
  let pos_reward := np.clip (1 - pos_error) (-1) 1 in
  let self := append_pos_reward self pos_reward in
  match np.dot (slice_from 3 goal) (slice_from 3 achieved_goal) with
  | Raise e => (Raise e, self)
  | Ok d1 =>
  match np.dot (slice_from 3 goal) (np.neg (slice_from 3 achieved_goal)) with
  | Raise e => (Raise e, self)
  | Ok d2 =>
  let quat_reward := py.max d1 d2 in
  let self := append_quat_reward self quat_reward in
  let bonus_reward :=
    if gt pos_reward (1 - distance_threshold self) && gt quat_reward 0.98
    then 1%Z else 0%Z in
  let self := append_bonus_reward self bonus_reward in
  (Ok (kp self * pos_reward + ko self * quat_reward
       + (1 - kp self - ko self) * IZR bonus_reward), self)
  end
  end.

(** The [while True] loop of [_sample_goal]. [draws] lists the outcomes of
    the successive calls of [random_euler_angles()]; the loop returns at the
    first outcome it accepts and is still running ([None]) when it has
    rejected them all. *)
Fixpoint sample_goal_loop (draws : list (R * R * R)) : option array4 :=
  match draws with
  | [] => None
  | (roll, pitch, yaw) :: draws' =>
      let q := euler_to_quaternion roll pitch yaw in
      let w := a4_0 q in
      let x := a4_1 q in
      let y := a4_2 q in
      let z := a4_3 q in
      let tf := quaternion_to_transformation_matrix (Array4 w x y z) in
      let z_axis := dot_mv tf (Array4 0 0 1 0) in
      if lt (a4_2 z_axis) (np.sin (- np.pi / 6)) && lt (a4_1 z_axis) (- np.sin (np.pi / 4))
      then Some (Array4 w x y z)
      else sample_goal_loop draws'
  end.

(** The position that [_sample_goal] draws before its loop; [u0], [u1] and
    [u2] are the outcomes of the three calls of [random()]. *)
Definition sample_goal_pos (self : LarccEnv) (u0 u1 u2 : R) : array3 :=
  Array3
    (a3_0 (table_pos self)
     + random.uniform (- a3_0 (table_size self) / 2 + 0.1) (a3_0 (table_size self) / 2 - 0.1) u0)
    (a3_1 (table_pos self)
     + random.uniform (- a3_1 (table_size self) / 2) (a3_1 (table_size self) / 2 - 0.1) u1)
    (a3_2 (table_pos self) + a3_2 (table_size self) / 2 + random.uniform 0.1 0.6 u2).

(** [LarccEnv._sample_goal]. *)
Definition _sample_goal (self : LarccEnv) (u0 u1 u2 : R) (draws : list (R * R * R))
  : option ndarray :=
  let goal_pos := sample_goal_pos self u0 u1 u2 in
  match sample_goal_loop draws with
  | None => None
  | Some goal_quat => Some (np.concatenate goal_pos goal_quat)
  end.

(** [LarccEnv._is_success]. *)
Definition _is_success (self : LarccEnv) (achieved_goal desired_goal : ndarray) : result bool :=
  if (0 <? length (bonus_rewards self))%nat
  then b <- getitem_last (bonus_rewards self) ;; Ok (b =? 1)%Z
  else Ok false.

(** *** Sequences of calls

    The methods of the component as calls on one object; [exec] gives the
    object after a call. Only [compute_reward] and [set_goal] write to
    [self]. *)
Variable Info : Type.

Inductive call : Type :=
| call_validate_initial_qpos (qpos : ndarray)
| call_compute_reward (achieved_goal goal : ndarray) (info : Info)
| call_sample_goal (u0 u1 u2 : R) (draws : list (R * R * R))
| call_is_success (achieved_goal desired_goal : ndarray)
| call_set_goal (g : ndarray).

Definition exec (self : LarccEnv) (c : call) : LarccEnv :=
  match c with
  | call_validate_initial_qpos _ => self
  | call_compute_reward a g i => snd (compute_reward self a g i)
  | call_sample_goal _ _ _ _ => self
  | call_is_success _ _ => self
  | call_set_goal g => set_goal self g
  end.

Definition run (self : LarccEnv) (cs : list call) : LarccEnv := fold_left exec cs self.

Definition is_compute_reward (c : call) : bool :=
  match c with
  | call_compute_reward _ _ _ => true
  | _ => false
  end.



End env.

(** ** The properties, in the words of the specification *)

(** A pose: a position and a quaternion (w, x, y, z), seven scalars. *)
Record Pose : Type := mkPose { position : array3; quaternion : array4 }.

Definition pose_array (p : Pose) : ndarray := np.concatenate (position p) (quaternion p).

Definition negate_quaternion (p : Pose) : Pose :=
  let q := quaternion p in
  mkPose (position p) (Array4 (- a4_0 q) (- a4_1 q) (- a4_2 q) (- a4_3 q)).

Definition unit_quaternion (q : array4) : Prop :=
  a4_0 q * a4_0 q + a4_1 q * a4_1 q + a4_2 q * a4_2 q + a4_3 q * a4_3 q = 1.

(** The orientation cone: the world z-axis points forward and downward. *)
Definition points_forward_and_down (z_axis : array4) : Prop :=
  a4_2 z_axis < Rtrigo_def.sin (- (PI / 6)) /\ a4_1 z_axis < - Rtrigo_def.sin (PI / 4).

(** The bounding box of the validator and of the sampler. *)
Definition in_workspace_box (self : LarccEnv) (p : array3) : Prop :=
  (a3_0 (table_pos self) - a3_0 (table_size self) / 2 + 0.1 <= a3_0 p
   <= a3_0 (table_pos self) + a3_0 (table_size self) / 2 - 0.1)
  /\ (a3_1 (table_pos self) - a3_1 (table_size self) / 2 <= a3_1 p
      <= a3_1 (table_pos self) + a3_1 (table_size self) / 2 - 0.1)
  /\ (a3_2 (table_pos self) + a3_2 (table_size self) / 2 + 0.1 <= a3_2 p
      <= a3_2 (table_pos self) + a3_2 (table_size self) / 2 + 0.6).

(** The Euclidean distance of two points. *)
Definition euclidean_distance (a b : array3) : R :=
  sqrt ((a3_0 a - a3_0 b)² + (a3_1 a - a3_1 b)² + (a3_2 a - a3_2 b)²).

Definition quaternion_dot (a b : array4) : R :=
  a4_0 a * a4_0 b + a4_1 a * a4_1 b + a4_2 a * a4_2 b + a4_3 a * a4_3 b.

(** The three reward terms and their weighted sum, as section 4.4 of the
    specification writes them. *)
Definition spec_clip (x lo hi : R) : R :=
  if Rlt_dec x lo then lo else if Rlt_dec hi x then hi else x.

Definition spec_pos_reward (achieved desired : Pose) : R :=
  spec_clip (1 - euclidean_distance (position desired) (position achieved)) (-1) 1.

Definition spec_quat_reward (achieved desired : Pose) : R :=
  Rmax (quaternion_dot (quaternion desired) (quaternion achieved))
       (quaternion_dot (quaternion desired) (quaternion (negate_quaternion achieved))).

Definition spec_bonus_reward (self : LarccEnv) (achieved desired : Pose) : Z :=
  if Rlt_dec (1 - distance_threshold self) (spec_pos_reward achieved desired)
  then if Rlt_dec 0.98 (spec_quat_reward achieved desired) then 1%Z else 0%Z
  else 0%Z.

Definition spec_reward (self : LarccEnv) (achieved desired : Pose) : R :=
  kp self * spec_pos_reward achieved desired
  + ko self * spec_quat_reward achieved desired
  + (1 - kp self - ko self) * IZR (spec_bonus_reward self achieved desired).

(** A draw of Euler angles that the loop of the sampler accepts. *)
Definition accepted_draw (q2t : array4 -> array4x4) (e2q : R -> R -> R -> array4)
    (d : R * R * R) : Prop :=
  let '(roll, pitch, yaw) := d in
  points_forward_and_down (z_axis_of q2t (e2q roll pitch yaw)).

(** The terms that [compute_reward] computes on a pair of poses, for a
    given [point_distance]. *)
Definition position_array (p : Pose) : ndarray :=
  [a3_0 (position p); a3_1 (position p); a3_2 (position p)].

Definition pos_term (pd : ndarray -> ndarray -> R) (achieved desired : Pose) : R :=
  np.clip (1 - pd (position_array desired) (position_array achieved)) (-1) 1.

Definition bonus_term (self : LarccEnv) (pos_reward quat_reward : R) : Z :=
  if py.gt pos_reward (1 - distance_threshold self) && py.gt quat_reward 0.98
  then 1%Z else 0%Z.

(** The object after one complete call of [compute_reward]. *)
Definition with_rewards (self : LarccEnv) (pos_reward quat_reward : R) (bonus_reward : Z)
  : LarccEnv :=
  append_bonus_reward
    (append_quat_reward (append_pos_reward self pos_reward) quat_reward) bonus_reward.

(** ** The robot and the simulator

    The joints and links that [LarccEnv] names, the simulator it drives, and
    the methods that act on the simulator. *)

(** [self.joint_names] and [self.initial_joint_values], constants of
    [__init__]. *)
Definition joint_names : list String.string :=
  ["shoulder_pan_joint"%string; "shoulder_lift_joint"%string; "elbow_joint"%string;
   "wrist_1_joint"%string; "wrist_2_joint"%string; "wrist_3_joint"%string].

Definition initial_joint_values : list R :=
  [-0.004053417836324513; -1.7941252193846644; 1.5798662344561976;
   -1.4848967355540772; -1.63149339357485; -0.07133704820741826].

(** The bodies that [_reset_sim] compares with the table. *)
Definition link_names : list String.string :=
  ["shoulder_link"%string; "upper_arm_link"%string; "forearm_link"%string;
   "wrist_1_link"%string; "wrist_2_link"%string; "wrist_3_link"%string].

(** What [LarccEnv] asks of the simulator ([self.model], [self.data],
    [self._utils], [self._mujoco]); [sim] is the state of the simulator.
    - [get_joint_qpos s name] is [get_joint_qpos(model, data, name)[0]];
    - [set_joint_qpos s name v] is [set_joint_qpos(model, data, name, v)];
    - [mj_forward s] is [mj_forward(model, data)];
    - [xpos s name] and [xquat s name] are [data.xpos[id]] and
      [data.xquat[id]] for the body of that name;
    - [restore_initial s] sets the time, [qpos], [qvel] and the actuator
      state as the first statements of [_reset_sim] do;
    - [set_qpos_to_6 s a] is [data.qpos[:6] = a]. *)
Class Simulator : Type := {
  sim : Type;
  get_joint_qpos : sim -> String.string -> R;
  set_joint_qpos : sim -> String.string -> R -> sim;
  mj_forward : sim -> sim;
  xpos : sim -> String.string -> array3;
  xquat : sim -> String.string -> array4;
  restore_initial : sim -> sim;
  set_qpos_to_6 : sim -> ndarray -> sim
}.

(** The joint positions behave as a store: a joint reads what was last
    written to it, and writing one joint leaves the others. *)
Definition joint_store (M : Simulator) : Prop :=
  (forall (s : sim) (name : String.string) (v : R),
     get_joint_qpos (set_joint_qpos s name v) name = v)
  /\ (forall (s : sim) (name other : String.string) (v : R),
        name <> other ->
        get_joint_qpos (set_joint_qpos s name v) other = get_joint_qpos s other).

(** The dictionary that [_get_obs] returns. *)
Record Obs : Type := mkObs {
  obs_observation : ndarray;
  obs_achieved_goal : ndarray;
  obs_desired_goal : ndarray
}.

Section robot.

Context {M : Simulator}.
Variable quaternion_to_transformation_matrix : array4 -> array4x4.

(** [LarccEnv.get_eef]. *)
Definition get_eef (s : sim) : ndarray :=
  np.concatenate (xpos s "eef"%string) (xquat s "eef"%string).

(** The second loop of [_set_action]:
    [for i in range(6): set_joint_qpos(..., self.joint_names[i], new_joint_pos[i])],
    from index [i] on. *)
Fixpoint set_joints (s : sim) (names : list String.string) (values : ndarray) (i : nat)
  : result unit * sim :=
  match names with
  | [] => (Ok tt, s)
  | name :: names' =>
      match getitem values i with
      | Raise e => (Raise e, s)
      | Ok v => set_joints (set_joint_qpos s name v) names' values (S i)
      end
  end.

(** [LarccEnv._set_action]; the argument is copied first, the caller's array
    is not written. *)
Definition _set_action (s : sim) (action : ndarray) : result unit * sim :=
  let action := np.imul_slice_to 2 0.08 action in
  let action := np.imul_slice_from 2 0.12 action in
  let current_joint_pos := map (get_joint_qpos s) joint_names in
  match np.add current_joint_pos action with
  | Raise e => (Raise e, s)
  | Ok new_joint_pos =>
      let new_joint_pos := np.clip_array new_joint_pos (- np.pi) np.pi in
      set_joints s joint_names new_joint_pos 0
  end.

(** [LarccEnv._get_obs]. *)
Definition _get_obs (self : LarccEnv) (s : sim) : Obs :=
  let observation := map (get_joint_qpos s) joint_names in
  let achieved_goal := get_eef s in
  let goal := if (0 <? length (goal self))%nat then goal self else np.zeros 7 in
  {| obs_observation := observation;
     obs_achieved_goal := achieved_goal;
     obs_desired_goal := goal |}.

(** The flag [robot_in_table] after the loop over the links. *)
Definition robot_in_table (self : LarccEnv) (s : sim) : bool :=
  fold_left
    (fun flag name =>
       if py.lt (a3_2 (xpos s name)) (a3_2 (table_size self)) then true else flag)
    link_names false.

(** One turn of the loop of [_reset_sim] up to its test: the candidate joint
    positions are written and the simulator recomputes the poses. *)
Definition reset_candidate (s : sim) (candidate : ndarray) : sim :=
  mj_forward (set_qpos_to_6 s candidate).

(** The [while True] loop of [_reset_sim]. [draws] lists the outcomes of the
    successive calls of [np.random.uniform(-np.pi, np.pi, 6)]; the loop is
    still running ([None]) when it has rejected them all. *)
Fixpoint reset_loop (self : LarccEnv) (s : sim) (draws : list ndarray)
  : option (result unit * sim) :=
  match draws with
  | [] => None
  | candidate :: draws' =>
      let s := reset_candidate s candidate in
      match validate_initial_qpos quaternion_to_transformation_matrix self (get_eef s) with
      | Raise e => Some (Raise e, s)
      | Ok true =>
          if negb (robot_in_table self s) then Some (Ok tt, s)
          else reset_loop self s draws'
      | Ok false => reset_loop self s draws'
      end
  end.

(** [LarccEnv._reset_sim]. *)
Definition _reset_sim (self : LarccEnv) (s : sim) (draws : list ndarray)
  : option (result bool * sim) :=
  let s := restore_initial s in
  if random_start self then
    match reset_loop self s draws with
    | None => None
    | Some (Raise e, s) => Some (Raise e, s)
    | Some (Ok _, s) => Some (Ok true, s)
    end
  else Some (Ok true, s).

(** A candidate that the loop of [_reset_sim] accepts when it is tried in
    state [s]. *)
Definition reset_accepts (self : LarccEnv) (s : sim) (candidate : ndarray) : Prop :=
  validate_initial_qpos quaternion_to_transformation_matrix self
    (get_eef (reset_candidate s candidate)) = Ok true
  /\ robot_in_table self (reset_candidate s candidate) = false.

End robot.

(** A simulator made of a store of joint positions and the six positions
    last written to [qpos]; the end effector sits at the first three of them
    with the identity orientation and the links are 1 above the floor. *)
Record store_sim : Type := mkStoreSim {
  store_joints : String.string -> R;
  store_qpos : ndarray
}.

#[export] Instance store_simulator : Simulator := {|
  sim := store_sim;
  get_joint_qpos := fun s name => store_joints s name;
  set_joint_qpos := fun s name v =>
    mkStoreSim (fun other => if String.eqb name other then v else store_joints s other)
               (store_qpos s);
  mj_forward := fun s => s;
  xpos := fun s name =>
    if String.eqb name "eef"%string
    then Array3 (nth 0 (store_qpos s) 0) (nth 1 (store_qpos s) 0) (nth 2 (store_qpos s) 0)
    else Array3 0 0 1;
  xquat := fun s name => Array4 1 0 0 0;
  restore_initial := fun s => s;
  set_qpos_to_6 := fun s a => mkStoreSim (store_joints s) a
|}.

(** ** Basic facts about the primitives *)

Lemma lt_true_iff (x y : R) : py.lt x y = true <-> x < y.
Proof. unfold py.lt. destruct (Rlt_dec x y); split; intros; try lra; discriminate. Qed.

Lemma lt_false_iff (x y : R) : py.lt x y = false <-> y <= x.
Proof. unfold py.lt. destruct (Rlt_dec x y); split; intros; try lra; discriminate. Qed.

Lemma gt_true_iff (x y : R) : py.gt x y = true <-> y < x.
Proof. unfold py.gt. destruct (Rgt_dec x y); split; intros; try lra; discriminate. Qed.

Lemma gt_false_iff (x y : R) : py.gt x y = false <-> x <= y.
Proof. unfold py.gt. destruct (Rgt_dec x y); split; intros; try lra; discriminate. Qed.

Lemma ge_true_iff (x y : R) : py.ge x y = true <-> y <= x.
Proof. unfold py.ge. destruct (Rge_dec x y); split; intros; try lra; discriminate. Qed.

Lemma ge_false_iff (x y : R) : py.ge x y = false <-> x < y.
Proof. unfold py.ge. destruct (Rge_dec x y); split; intros; try lra; discriminate. Qed.

Lemma ge_negb_lt (x y : R) : py.ge x y = negb (py.lt x y).
Proof.
  destruct (py.lt x y) eqn:E; simpl.
  - apply ge_false_iff. now apply lt_true_iff.
  - apply ge_true_iff. now apply lt_false_iff.
Qed.

Lemma max_is_Rmax (a b : R) : py.max a b = Rmax a b.
Proof.
  unfold py.max, py.gt, Rmax.
  destruct (Rgt_dec b a), (Rle_dec a b); lra.
Qed.

Lemma clip_is_spec_clip (x lo hi : R) : lo <= hi -> np.clip x lo hi = spec_clip x lo hi.
Proof.
  intros Hle. unfold np.clip, spec_clip, Rmin, Rmax.
  destruct (Rle_dec x lo), (Rlt_dec x lo), (Rlt_dec hi x);
    try destruct (Rle_dec lo hi); try destruct (Rle_dec x hi); lra.
Qed.

Lemma inv_sqrt2_bounds : 7 / 10 < 1 / sqrt 2 < 4 / 5.
Proof.
  assert (Hlo : 5 / 4 < sqrt 2).
  { rewrite <- (sqrt_square (5 / 4)) by lra. apply sqrt_lt_1; lra. }
  assert (Hhi : sqrt 2 < 10 / 7).
  { rewrite <- (sqrt_square (10 / 7)) by lra. apply sqrt_lt_1; lra. }
  assert (Hinv : 1 / sqrt 2 * sqrt 2 = 1) by (field; lra).
  split.
  - apply Rmult_lt_reg_r with (sqrt 2); [lra | rewrite Hinv; lra].
  - apply Rmult_lt_reg_r with (sqrt 2); [lra | rewrite Hinv; lra].
Qed.

(** The test of the sampler's loop is the orientation cone. *)
Lemma cone_test_iff (z_axis : array4) :
  py.lt (a4_2 z_axis) (np.sin (- np.pi / 6)) && py.lt (a4_1 z_axis) (- np.sin (np.pi / 4)) = true
  <-> points_forward_and_down z_axis.
Proof.
  unfold points_forward_and_down.
  rewrite andb_true_iff, !lt_true_iff.
  unfold np.sin, np.pi.
  replace (- PI / 6) with (- (PI / 6)) by lra.
  tauto.
Qed.

(** The test of the validator's last branch is the complement of the cone. *)
Lemma validator_test_iff (z_axis : array4) :
  py.ge (a4_2 z_axis) (np.sin (- np.pi / 6)) || py.ge (a4_1 z_axis) (- np.sin (np.pi / 4)) = true
  <-> ~ points_forward_and_down z_axis.
Proof.
  rewrite <- cone_test_iff, !ge_negb_lt, <- negb_andb.
  destruct (py.lt _ _ && py.lt _ _); simpl; split; intros; congruence.
Qed.

(** Every array of 7 scalars is the array of a pose. *)
Lemma pose_array_of_length_7 (l : ndarray) :
  length l = 7%nat -> exists p : Pose, l = pose_array p.
Proof.
  intros H.
  do 7 (destruct l as [|? l]; [discriminate|]).
  destruct l; [|discriminate].
  now exists (mkPose (Array3 r r0 r1) (Array4 r2 r3 r4 r5)).
Qed.

(** ** The validator *)

(** What the validator computes on a pose: the three box tests, then the
    test on the z-axis. *)
Lemma validate_initial_qpos_in_box q2t (self : LarccEnv) (p : Pose) :
  in_workspace_box self (position p) ->
  validate_initial_qpos q2t self (pose_array p)
  = Ok (py.ge (a4_2 (z_axis_of q2t (quaternion p))) (np.sin (- np.pi / 6))
        || py.ge (a4_1 (z_axis_of q2t (quaternion p))) (- np.sin (np.pi / 4))).
Proof.
  intros (Hx & Hy & Hz).
  destruct p as [[px py pz] [w x y z]]. simpl in *.
  unfold validate_initial_qpos, z_axis_of. simpl.
  assert (E : forall a lo hi, lo <= a <= hi -> py.lt a lo || py.gt a hi = false).
  { intros a lo hi H. apply orb_false_iff. split.
    - apply lt_false_iff; lra.
    - apply gt_false_iff; lra. }
  rewrite (E px), (E py), (E pz) by assumption.
  now destruct (py.ge _ _ || py.ge _ _).
Qed.

(** The validator as the code has it: inside the box a pose is accepted
    exactly when its z-axis is outside the orientation cone. *)
Lemma validate_initial_qpos_accepts_outside_cone q2t (self : LarccEnv) (p : Pose) :
  in_workspace_box self (position p) ->
  (validate_initial_qpos q2t self (pose_array p) = Ok true
   <-> ~ points_forward_and_down (z_axis_of q2t (quaternion p))).
Proof.
  intros Hbox. rewrite (validate_initial_qpos_in_box q2t self p Hbox).
  split.
  - intros [= H]. now apply validator_test_iff.
  - intros H. apply validator_test_iff in H. now rewrite H.
Qed.

(** C1, evaluated on the code: with the table of the constructor, the pose at
    (0.1, 0.16, 1) with the identity quaternion passes the three box tests,
    its world z-axis is (0, 0, 1), which points upward and is outside the
    orientation cone, and [validate_initial_qpos] returns [True]; the
    validator does not return true exactly on the cone. *)
Theorem validate_initial_qpos_accepts_upward_pose :
  let self := __init__ false 0.02 0.5 0.25 in
  let p := mkPose (Array3 0.1 0.16 1) (Array4 1 0 0 0) in
  in_workspace_box self (position p)
  /\ z_axis_of utils.quaternion_to_transformation_matrix (quaternion p) = Array4 0 0 1 0
  /\ ~ points_forward_and_down
         (z_axis_of utils.quaternion_to_transformation_matrix (quaternion p))
  /\ validate_initial_qpos utils.quaternion_to_transformation_matrix self (pose_array p)
     = Ok true.
Proof.
  intros self p.
  assert (Hbox : in_workspace_box self (position p)).
  { unfold in_workspace_box; simpl; lra. }
  assert (Hz : z_axis_of utils.quaternion_to_transformation_matrix (quaternion p)
               = Array4 0 0 1 0).
  { unfold z_axis_of, utils.quaternion_to_transformation_matrix, dot_mv, dot4; simpl.
    f_equal; lra. }
  assert (Hcone : ~ points_forward_and_down
                      (z_axis_of utils.quaternion_to_transformation_matrix (quaternion p))).
  { rewrite Hz. unfold points_forward_and_down; simpl.
    rewrite sin_neg, sin_PI6. lra. }
  repeat split; try assumption; try apply Hbox.
  now apply validate_initial_qpos_accepts_outside_cone.
Qed.

(** C7: a pose whose position is outside the box
    [tableX - sizeX/2 + 0.1, tableX + sizeX/2 - 0.1] x
    [tableY - sizeY/2, tableY + sizeY/2 - 0.1] x
    [tableZ + sizeZ/2 + 0.1, tableZ + sizeZ/2 + 0.6] is rejected, whatever its
    quaternion and whatever the quaternion-to-transform helper computes: the
    orientation test has no part in the answer. *)
Theorem validate_initial_qpos_rejects_outside_box
    (q2t : array4 -> array4x4) (self : LarccEnv) (p : Pose) :
  ~ in_workspace_box self (position p) ->
  validate_initial_qpos q2t self (pose_array p) = Ok false.
Proof.
  intros Hout.
  destruct p as [[px py pz] [w x y z]].
  unfold validate_initial_qpos; simpl.
  destruct (py.lt px _ || py.gt px _) eqn:Ex; [reflexivity|].
  destruct (py.lt py _ || py.gt py _) eqn:Ey; [reflexivity|].
  destruct (py.lt pz _ || py.gt pz _) eqn:Ez; [reflexivity|].
  exfalso. apply Hout.
  apply orb_false_iff in Ex, Ey, Ez.
  rewrite lt_false_iff, gt_false_iff in Ex, Ey, Ez.
  unfold in_workspace_box; simpl. tauto.
Qed.

Lemma validate_initial_qpos_rejects_outside_box_witness :
  let self := __init__ false 0.02 0.5 0.25 in
  let p := mkPose (Array3 2 0.16 1) (Array4 1 0 0 0) in
  ~ in_workspace_box self (position p)
  /\ validate_initial_qpos utils.quaternion_to_transformation_matrix self (pose_array p)
     = Ok false.
Proof.
  intros self p.
  assert (Hout : ~ in_workspace_box self (position p)).
  { unfold in_workspace_box; simpl. lra. }
  split; [exact Hout|].
  exact (validate_initial_qpos_rejects_outside_box _ self p Hout).
Defined.

(** C8: an array whose length is not 7 is rejected by the first test of
    [validate_initial_qpos]: the answer is [False], no element is read (no
    [IndexError] on a short array), and the quaternion-to-transform helper
    has no part in it. *)
Theorem validate_initial_qpos_rejects_wrong_length
    (q2t : array4 -> array4x4) (self : LarccEnv) (qpos : ndarray) :
  length qpos <> 7%nat ->
  validate_initial_qpos q2t self qpos = Ok false.
Proof.
  intros Hlen. unfold validate_initial_qpos.
  destruct (length qpos =? 7)%nat eqn:E; [|reflexivity].
  apply Nat.eqb_eq in E. contradiction.
Qed.

Lemma validate_initial_qpos_rejects_wrong_length_witness :
  length (@nil R) <> 7%nat
  /\ py.getitem (@nil R) 0 = Raise IndexError
  /\ validate_initial_qpos utils.quaternion_to_transformation_matrix
       (__init__ false 0.02 0.5 0.25) [] = Ok false.
Proof.
  assert (Hlen : length (@nil R) <> 7%nat) by discriminate.
  split; [exact Hlen|]. split; [reflexivity|].
  exact (validate_initial_qpos_rejects_wrong_length _ _ [] Hlen).
Defined.

(** The validator never raises. *)
Lemma validate_initial_qpos_returns q2t (self : LarccEnv) (qpos : ndarray) :
  exists b : bool, validate_initial_qpos q2t self qpos = Ok b.
Proof.
  unfold validate_initial_qpos.
  destruct (length qpos =? 7)%nat eqn:E; [|now exists false].
  apply Nat.eqb_eq in E.
  destruct (pose_array_of_length_7 qpos E) as [[[px py pz] [w x y z]] ->]. simpl.
  repeat match goal with
         | |- context [if ?c then _ else _] => destruct c
         end; eexists; reflexivity.
Qed.

(** ** The reward *)



(** One call of [compute_reward] on two poses, for any [point_distance]. *)
Lemma compute_reward_on_poses (pd : ndarray -> ndarray -> R) (Info : Type)
    (self : LarccEnv) (achieved desired : Pose) (info : Info) :
  compute_reward pd self (pose_array achieved) (pose_array desired) info
  = (Ok (kp self * pos_term pd achieved desired
         + ko self * spec_quat_reward achieved desired
         + (1 - kp self - ko self)
           * IZR (bonus_term self (pos_term pd achieved desired)
                             (spec_quat_reward achieved desired))),
     with_rewards self (pos_term pd achieved desired) (spec_quat_reward achieved desired)
       (bonus_term self (pos_term pd achieved desired) (spec_quat_reward achieved desired))).
Proof.
  destruct achieved as [[ax ay az] [aw aqx aqy aqz]].
  destruct desired as [[dx dy dz] [dw dqx dqy dqz]].
  unfold compute_reward, pose_array, np.concatenate, slice_from, slice_to, np.neg.
  cbn [position quaternion a3_0 a3_1 a3_2 a4_0 a4_1 a4_2 a4_3 skipn firstn map np.dot py.bind].
  rewrite max_is_Rmax.
  assert (E : Rmax (dw * aw + (dqx * aqx + (dqy * aqy + (dqz * aqz + 0))))
                   (dw * - aw + (dqx * - aqx + (dqy * - aqy + (dqz * - aqz + 0))))
              = spec_quat_reward (mkPose (Array3 ax ay az) (Array4 aw aqx aqy aqz))
                                 (mkPose (Array3 dx dy dz) (Array4 dw dqx dqy dqz))).
  { unfold spec_quat_reward, quaternion_dot, negate_quaternion; simpl.
    f_equal; ring. }
  rewrite E. reflexivity.
Qed.

(** The modelled [point_distance] on two positions is their Euclidean
    distance. *)
Lemma point_distance_euclidean (a b : Pose) :
  utils.point_distance (position_array a) (position_array b)
  = euclidean_distance (position a) (position b).
Proof.
  unfold utils.point_distance, euclidean_distance, position_array, Rsqr; simpl.
  f_equal. ring.
Qed.

Lemma pos_term_spec (achieved desired : Pose) :
  pos_term utils.point_distance achieved desired = spec_pos_reward achieved desired.
Proof.
  unfold pos_term, spec_pos_reward.
  rewrite point_distance_euclidean. apply clip_is_spec_clip. lra.
Qed.

Lemma bonus_term_spec (self : LarccEnv) (achieved desired : Pose) :
  bonus_term self (spec_pos_reward achieved desired) (spec_quat_reward achieved desired)
  = spec_bonus_reward self achieved desired.
Proof.
  unfold bonus_term, spec_bonus_reward, py.gt.
  destruct (Rgt_dec _ _), (Rlt_dec (1 - _) _); try lra; simpl; try reflexivity.
  destruct (Rgt_dec _ _), (Rlt_dec 0.98 _); try lra; reflexivity.
Qed.

(** C3: on two poses of 7 scalars [compute_reward] returns
    kp * posReward + ko * quatReward + (1 - kp - ko) * bonusReward, where
    posReward is 1 minus the Euclidean distance of the positions clipped to
    [-1, 1], quatReward is the larger of dot(desired.quat, achieved.quat) and
    dot(desired.quat, -achieved.quat), and bonusReward is 1 when
    posReward > 1 - distanceThreshold and quatReward > 0.98, else 0; the three
    terms are appended to the three histories. *)
Theorem compute_reward_is_weighted_sum (Info : Type) (self : LarccEnv)
    (achieved desired : Pose) (info : Info) :
  compute_reward utils.point_distance self (pose_array achieved) (pose_array desired) info
  = (Ok (spec_reward self achieved desired),
     with_rewards self (spec_pos_reward achieved desired)
       (spec_quat_reward achieved desired) (spec_bonus_reward self achieved desired)).
Proof.
  rewrite compute_reward_on_poses, pos_term_spec, bonus_term_spec.
  reflexivity.
Qed.

(** The reward on two poses 0.5 apart with the same orientation, with the
    default weights: 0.5 * 0.5 + 0.25 * 1 + 0.25 * 0. *)
Lemma compute_reward_example :
  let self := __init__ false 0.02 0.5 0.25 in
  let achieved := mkPose (Array3 0.1 0.16 1) (Array4 1 0 0 0) in
  let desired := mkPose (Array3 0.4 0.56 1) (Array4 1 0 0 0) in
  compute_reward utils.point_distance self (pose_array achieved) (pose_array desired) tt
  = (Ok 0.5, with_rewards self 0.5 1 0%Z).
Proof.
  intros self achieved desired.
  assert (Hd : utils.point_distance (position_array desired) (position_array achieved) = 0.5).
  { unfold utils.point_distance, position_array; simpl.
    transitivity (sqrt (0.5 * 0.5)); [f_equal; lra | apply sqrt_square; lra]. }
  assert (Hp : pos_term utils.point_distance achieved desired = 0.5).
  { unfold pos_term. rewrite Hd. unfold np.clip, Rmin, Rmax.
    destruct (Rle_dec (1 - 0.5) (-1)); [lra|].
    destruct (Rle_dec (1 - 0.5) 1); lra. }
  assert (Hq : spec_quat_reward achieved desired = 1).
  { unfold spec_quat_reward, quaternion_dot; simpl. unfold Rmax.
    destruct (Rle_dec _ _); lra. }
  assert (Hb : bonus_term self 0.5 1 = 0%Z).
  { unfold bonus_term, py.gt; simpl.
    destruct (Rgt_dec 0.5 (1 - 0.02)); [lra | reflexivity]. }
  rewrite compute_reward_on_poses, Hp, Hq, Hb.
  do 2 f_equal. simpl. lra.
Qed.

(** C6: negating the quaternion of the achieved pose changes neither the
    value that [compute_reward] returns nor the entries it appends to the
    histories, for any [point_distance]. *)
Theorem compute_reward_negated_quaternion (pd : ndarray -> ndarray -> R) (Info : Type)
    (self : LarccEnv) (achieved desired : Pose) (info : Info) :
  compute_reward pd self (pose_array (negate_quaternion achieved)) (pose_array desired) info
  = compute_reward pd self (pose_array achieved) (pose_array desired) info.
Proof.
  rewrite !compute_reward_on_poses.
  assert (Hq : spec_quat_reward (negate_quaternion achieved) desired
               = spec_quat_reward achieved desired).
  { unfold spec_quat_reward, quaternion_dot, negate_quaternion; simpl.
    rewrite Rmax_comm. f_equal; ring. }
  assert (Hp : pos_term pd (negate_quaternion achieved) desired = pos_term pd achieved desired)
    by reflexivity.
  now rewrite Hq, Hp.
Qed.

Lemma point_distance_same (p : Pose) :
  utils.point_distance (position_array p) (position_array p) = 0.
Proof.
  unfold utils.point_distance, position_array; simpl.
  transitivity (sqrt 0); [f_equal; ring | apply sqrt_0].
Qed.

Lemma pos_term_same (p : Pose) : pos_term utils.point_distance p p = 1.
Proof.
  unfold pos_term. rewrite point_distance_same.
  unfold np.clip, Rmin, Rmax.
  destruct (Rle_dec (1 - 0) (-1)); [lra|].
  destruct (Rle_dec (1 - 0) 1); lra.
Qed.

Lemma quat_reward_same (p : Pose) :
  unit_quaternion (quaternion p) -> spec_quat_reward p p = 1.
Proof.
  unfold unit_quaternion, spec_quat_reward, quaternion_dot, negate_quaternion.
  destruct p as [pos [w x y z]]; simpl. intros Hunit.
  rewrite Hunit.
  replace (w * - w + x * - x + y * - y + z * - z) with (-1) by lra.
  unfold Rmax. destruct (Rle_dec 1 (-1)); lra.
Qed.

(** C5, as the code has it: for a pose with a unit quaternion and a positive
    distance threshold, [compute_reward(p, p)] appends posReward = 1,
    quatReward = 1 and bonusReward = 1 and returns
    kp + ko + (1 - kp - ko) = 1. *)
Theorem compute_reward_same_pose (Info : Type) (self : LarccEnv) (p : Pose) (info : Info) :
  0 < distance_threshold self ->
  unit_quaternion (quaternion p) ->
  compute_reward utils.point_distance self (pose_array p) (pose_array p) info
  = (Ok 1, with_rewards self 1 1 1%Z).
Proof.
  intros Hdt Hunit.
  rewrite compute_reward_on_poses, pos_term_same, (quat_reward_same p Hunit).
  assert (Hb : bonus_term self 1 1 = 1%Z).
  { unfold bonus_term, py.gt.
    destruct (Rgt_dec 1 (1 - distance_threshold self)); [|lra].
    destruct (Rgt_dec 1 0.98); [reflexivity | lra]. }
  rewrite Hb. do 2 f_equal. simpl. lra.
Qed.

Lemma compute_reward_same_pose_witness :
  let self := __init__ false 0.02 0.5 0.25 in
  let p := mkPose (Array3 0.1 0.16 1) (Array4 1 0 0 0) in
  0 < distance_threshold self
  /\ unit_quaternion (quaternion p)
  /\ compute_reward utils.point_distance self (pose_array p) (pose_array p) tt
     = (Ok 1, with_rewards self 1 1 1%Z).
Proof.
  intros self p.
  assert (Hdt : 0 < distance_threshold self) by (simpl; lra).
  assert (Hunit : unit_quaternion (quaternion p)) by (unfold unit_quaternion; simpl; lra).
  split; [exact Hdt|]. split; [exact Hunit|].
  exact (compute_reward_same_pose unit self p tt Hdt Hunit).
Defined.

(** C5 as stated fails when the distance threshold is 0: on the pose at
    (0.1, 0.16, 1) with the identity quaternion, posReward = 1 is not greater
    than 1 - 0, so the bonus term appended is 0 and the value returned is
    kp + ko = 0.75. *)
Lemma compute_reward_same_pose_zero_threshold :
  let self := __init__ false 0 0.5 0.25 in
  let p := mkPose (Array3 0.1 0.16 1) (Array4 1 0 0 0) in
  unit_quaternion (quaternion p)
  /\ compute_reward utils.point_distance self (pose_array p) (pose_array p) tt
     = (Ok 0.75, with_rewards self 1 1 0%Z)
  /\ bonus_rewards (snd (compute_reward utils.point_distance self
                           (pose_array p) (pose_array p) tt)) = [0%Z]
  /\ fst (compute_reward utils.point_distance self (pose_array p) (pose_array p) tt)
     <> Ok 1.
Proof.
  intros self p.
  assert (Hunit : unit_quaternion (quaternion p)) by (unfold unit_quaternion; simpl; lra).
  assert (Hb : bonus_term self 1 1 = 0%Z).
  { unfold bonus_term, py.gt; simpl.
    destruct (Rgt_dec 1 (1 - 0)); [lra | reflexivity]. }
  assert (E : compute_reward utils.point_distance self (pose_array p) (pose_array p) tt
              = (Ok 0.75, with_rewards self 1 1 0%Z)).
  { rewrite compute_reward_on_poses, pos_term_same, (quat_reward_same p Hunit), Hb.
    do 2 f_equal. simpl. lra. }
  split; [exact Hunit|]. split; [exact E|].
  rewrite E; simpl. split; [reflexivity|].
  intros [= H]. lra.
Qed.

(** C10: the value that [compute_reward] returns and the entries that it
    appends depend on the two arrays and on kp, ko and the distance threshold
    only: two objects that agree on these three, called with the same arrays
    and any two [info] arguments, return the same result and append the same
    entries to their histories. *)
Theorem compute_reward_ignores_info (pd : ndarray -> ndarray -> R) (Info1 Info2 : Type)
    (self1 self2 : LarccEnv) (achieved_goal goal : ndarray)
    (info1 : Info1) (info2 : Info2) :
  kp self1 = kp self2 ->
  ko self1 = ko self2 ->
  distance_threshold self1 = distance_threshold self2 ->
  let r1 := compute_reward pd self1 achieved_goal goal info1 in
  let r2 := compute_reward pd self2 achieved_goal goal info2 in
  fst r1 = fst r2
  /\ exists (ps qs : list R) (bs : list Z),
       pos_rewards (snd r1) = pos_rewards self1 ++ ps
       /\ pos_rewards (snd r2) = pos_rewards self2 ++ ps
       /\ quat_rewards (snd r1) = quat_rewards self1 ++ qs
       /\ quat_rewards (snd r2) = quat_rewards self2 ++ qs
       /\ bonus_rewards (snd r1) = bonus_rewards self1 ++ bs
       /\ bonus_rewards (snd r2) = bonus_rewards self2 ++ bs.
Proof.
  intros Hkp Hko Hdt r1 r2. subst r1 r2. unfold compute_reward.
  destruct (np.dot (slice_from 3 goal) (slice_from 3 achieved_goal)) as [d1|e1].
  - destruct (np.dot (slice_from 3 goal) (np.neg (slice_from 3 achieved_goal))) as [d2|e2].
    + cbn [fst snd append_bonus_reward append_quat_reward append_pos_reward
           kp ko distance_threshold pos_rewards quat_rewards bonus_rewards].
      rewrite Hkp, Hko, Hdt. split; [reflexivity|].
      do 3 eexists. repeat split; reflexivity.
    + simpl. split; [reflexivity|].
      exists [np.clip (1 - pd (slice_to 3 goal) (slice_to 3 achieved_goal)) (-1) 1], [], [].
      rewrite !app_nil_r. repeat split; reflexivity.
  - simpl. split; [reflexivity|].
    exists [np.clip (1 - pd (slice_to 3 goal) (slice_to 3 achieved_goal)) (-1) 1], [], [].
    rewrite !app_nil_r. repeat split; reflexivity.
Qed.

Lemma compute_reward_ignores_info_witness :
  let self1 := __init__ false 0.02 0.5 0.25 in
  let self2 := set_goal (__init__ true 0.02 0.5 0.25) [0.1; 0.16; 1; 1; 0; 0; 0] in
  let a := pose_array (mkPose (Array3 0.1 0.16 1) (Array4 1 0 0 0)) in
  let g := pose_array (mkPose (Array3 0.2 0.16 1) (Array4 0 1 0 0)) in
  (kp self1 = kp self2 /\ ko self1 = ko self2
   /\ distance_threshold self1 = distance_threshold self2)
  /\ fst (compute_reward utils.point_distance self1 a g tt)
     = fst (compute_reward utils.point_distance self2 a g (Some 3%nat)).
Proof.
  intros self1 self2 a g.
  split; [now repeat split|].
  exact (proj1 (compute_reward_ignores_info utils.point_distance unit (option nat)
                  self1 self2 a g tt (Some 3%nat) eq_refl eq_refl eq_refl)).
Defined.


(** ** The reward histories along a sequence of calls *)

Section histories.

Variable pd : ndarray -> ndarray -> R.
Variable Info : Type.

(** A call other than [compute_reward] leaves the three histories as they
    are. *)
Lemma exec_other_call (self : LarccEnv) (c : call Info) :
  is_compute_reward Info c = false ->
  pos_rewards (exec pd Info self c) = pos_rewards self
  /\ quat_rewards (exec pd Info self c) = quat_rewards self
  /\ bonus_rewards (exec pd Info self c) = bonus_rewards self.
Proof. destruct c; simpl; intros H; try discriminate; auto. Qed.







Lemma run_other_calls (self : LarccEnv) (cs : list (call Info)) :
  Forall (fun c => is_compute_reward Info c = false) cs ->
  bonus_rewards (run pd Info self cs) = bonus_rewards self.
Proof.
  intros H. revert self. induction H as [|c cs Hc _ IH]; intros self; simpl.
  - reflexivity.
  - fold (run pd Info (exec pd Info self c) cs). rewrite IH. now apply exec_other_call.
Qed.

(** No call changes the table or the weights. *)
Lemma exec_configuration (self : LarccEnv) (c : call Info) :
  table_pos (exec pd Info self c) = table_pos self
  /\ table_size (exec pd Info self c) = table_size self
  /\ kp (exec pd Info self c) = kp self
  /\ ko (exec pd Info self c) = ko self
  /\ distance_threshold (exec pd Info self c) = distance_threshold self.
Proof.
  destruct c; simpl; auto.
  unfold compute_reward.
  destruct (np.dot _ _); [destruct (np.dot _ _)|]; simpl; auto.
Qed.

Lemma run_configuration (self : LarccEnv) (cs : list (call Info)) :
  table_pos (run pd Info self cs) = table_pos self
  /\ table_size (run pd Info self cs) = table_size self
  /\ kp (run pd Info self cs) = kp self
  /\ ko (run pd Info self cs) = ko self
  /\ distance_threshold (run pd Info self cs) = distance_threshold self.
Proof.
  revert self. induction cs as [|c cs IH]; intros self; simpl; auto.
  fold (run pd Info (exec pd Info self c) cs).
  destruct (IH (exec pd Info self c)) as (-> & -> & -> & -> & ->).
  apply exec_configuration.
Qed.

End histories.

Lemma getitem_last_app {A : Type} (l : list A) (x : A) : py.getitem_last (l ++ [x]) = Ok x.
Proof.
  unfold py.getitem_last, py.getitem.
  destruct (l ++ [x]) eqn:E; [now destruct l|].
  rewrite <- E, length_app, nth_error_app2; simpl; [|lia].
  now replace (length l + 1 - 1 - length l)%nat with 0%nat by lia.
Qed.

Lemma is_success_empty (self : LarccEnv) (a d : ndarray) :
  bonus_rewards self = [] -> _is_success self a d = Ok false.
Proof. intros H. unfold _is_success. now rewrite H. Qed.

Lemma is_success_last (self : LarccEnv) (a d : ndarray) (l : list Z) (b : Z) :
  bonus_rewards self = l ++ [b] -> _is_success self a d = Ok (b =? 1)%Z.
Proof.
  intros H. unfold _is_success. rewrite H, getitem_last_app, length_app. simpl.
  now replace (0 <? length l + 1)%nat with true by (symmetry; apply Nat.ltb_lt; lia).
Qed.




(** ** Success *)

(** What [_is_success] reads: the last entry of the bonus history, if any. *)
Lemma is_success_reads_history (self : LarccEnv) (a d : ndarray) :
  _is_success self a d
  = Ok (match rev (bonus_rewards self) with
        | [] => false
        | b :: _ => (b =? 1)%Z
        end).
Proof.
  destruct (bonus_rewards self) as [|x l] eqn:E using rev_ind.
  - now apply is_success_empty.
  - rewrite rev_app_distr. simpl. now apply is_success_last with l.
Qed.

(** C4: [_is_success] returns [False] on a new object and as long as no call
    of [compute_reward] has been made; after a call of [compute_reward],
    followed by any calls other than [compute_reward], it returns whether the
    bonus term that this call appended is 1, whatever its two pose arguments
    are. *)
Theorem is_success_reads_last_bonus (pd : ndarray -> ndarray -> R) (Info : Type)
    (rs : bool) (dt k_p k_o : R) (others : list (call Info))
    (self : LarccEnv) (achieved desired : Pose) (info : Info) :
  Forall (fun c => is_compute_reward Info c = false) others ->
  let computed :=
    exec pd Info self (call_compute_reward Info (pose_array achieved) (pose_array desired) info)
  in
  (forall a d : ndarray,
     _is_success (run pd Info (__init__ rs dt k_p k_o) others) a d = Ok false)
  /\ exists b : Z,
       bonus_rewards computed = bonus_rewards self ++ [b]
       /\ forall a d : ndarray,
            _is_success (run pd Info computed others) a d = Ok (b =? 1)%Z.
Proof.
  intros Hothers computed. split.
  - intros a d. apply is_success_empty.
    now rewrite (run_other_calls pd Info _ others Hothers).
  - subst computed. unfold exec. rewrite compute_reward_on_poses. simpl.
    eexists. split; [reflexivity|].
    intros a d. eapply is_success_last.
    rewrite (run_other_calls pd Info _ others Hothers). reflexivity.
Qed.

Lemma is_success_reads_last_bonus_witness :
  let p := mkPose (Array3 0.1 0.16 1) (Array4 1 0 0 0) in
  let new := __init__ false 0.02 0.5 0.25 in
  let others := [call_is_success unit (pose_array p) (pose_array p);
                 call_set_goal unit (pose_array p);
                 call_validate_initial_qpos unit (pose_array p)] in
  Forall (fun c => is_compute_reward unit c = false) others
  /\ _is_success (run utils.point_distance unit new others) [] [] = Ok false.
Proof.
  intros p new others.
  assert (Hothers : Forall (fun c => is_compute_reward unit c = false) others).
  { repeat constructor. }
  split; [exact Hothers|].
  exact (proj1 (is_success_reads_last_bonus utils.point_distance unit
                  false 0.02 0.5 0.25 others new p p tt Hothers) [] []).
Defined.

(** After [compute_reward(p, p)] with the default threshold the object is
    successful. *)
Lemma is_success_after_same_pose :
  let p := mkPose (Array3 0.1 0.16 1) (Array4 1 0 0 0) in
  let new := __init__ false 0.02 0.5 0.25 in
  _is_success (snd (compute_reward utils.point_distance new (pose_array p) (pose_array p) tt))
    [] [] = Ok true.
Proof.
  intros p new.
  assert (Hunit : unit_quaternion (quaternion p)) by (unfold unit_quaternion; simpl; lra).
  rewrite compute_reward_on_poses, pos_term_same, (quat_reward_same p Hunit).
  assert (Hb : bonus_term new 1 1 = 1%Z).
  { unfold bonus_term, py.gt; simpl.
    destruct (Rgt_dec 1 (1 - 0.02)); [|lra].
    destruct (Rgt_dec 1 0.98); [reflexivity | lra]. }
  rewrite Hb. reflexivity.
Qed.

(** ** The goal sampler *)

Section sampler.

Variable q2t : array4 -> array4x4.
Variable e2q : R -> R -> R -> array4.

Lemma array4_eta (q : array4) : Array4 (a4_0 q) (a4_1 q) (a4_2 q) (a4_3 q) = q.
Proof. now destruct q. Qed.

(** One turn of the loop: the draw is accepted exactly when the z-axis of
    its quaternion is in the cone. *)
Lemma sample_goal_loop_cons (d : R * R * R) (draws : list (R * R * R)) :
  (accepted_draw q2t e2q d
   /\ sample_goal_loop q2t e2q (d :: draws)
      = Some (let '(roll, pitch, yaw) := d in e2q roll pitch yaw))
  \/ (~ accepted_draw q2t e2q d
      /\ sample_goal_loop q2t e2q (d :: draws) = sample_goal_loop q2t e2q draws).
Proof.
  destruct d as [[roll pitch] yaw]. unfold accepted_draw, z_axis_of.
  cbn [sample_goal_loop]. cbv zeta. rewrite array4_eta.
  pose proof (cone_test_iff (dot_mv (q2t (e2q roll pitch yaw)) (Array4 0 0 1 0))) as Hcone.
  destruct (py.lt _ _ && py.lt _ _).
  - left. split; [now apply Hcone | reflexivity].
  - right. split; [|reflexivity].
    intros H. apply Hcone in H. discriminate.
Qed.

(** The loop returns the quaternion of the first accepted draw. *)
Lemma sample_goal_loop_first (draws : list (R * R * R)) (q : array4) :
  sample_goal_loop q2t e2q draws = Some q ->
  exists rejected d rest,
    draws = rejected ++ d :: rest
    /\ Forall (fun d' => ~ accepted_draw q2t e2q d') rejected
    /\ accepted_draw q2t e2q d
    /\ q = (let '(roll, pitch, yaw) := d in e2q roll pitch yaw).
Proof.
  induction draws as [|d draws IH]; [discriminate|].
  destruct (sample_goal_loop_cons d draws) as [[Hacc ->] | [Hrej ->]].
  - intros [= <-]. exists [], d, draws. repeat split; auto.
  - intros H. destruct (IH H) as (rejected & d' & rest & -> & Hall & Hacc & ->).
    exists (d :: rejected), d', rest. repeat split; auto.
Qed.

(** The loop ends as soon as the draws hold an accepted one. *)
Lemma sample_goal_loop_terminates (draws : list (R * R * R)) :
  Exists (accepted_draw q2t e2q) draws ->
  exists q, sample_goal_loop q2t e2q draws = Some q.
Proof.
  induction draws as [|d draws IH]; intros H; [inversion H|].
  destruct (sample_goal_loop_cons d draws) as [[Hacc ->] | [Hrej ->]].
  - now eexists.
  - apply IH. inversion H; subst; [contradiction | assumption].
Qed.

(** The position drawn is in the box as soon as the two horizontal ranges of
    the draw are not empty. *)
Lemma sample_goal_pos_in_box (self : LarccEnv) (u0 u1 u2 : R) :
  0.2 <= a3_0 (table_size self) ->
  0.1 <= a3_1 (table_size self) ->
  0 <= u0 < 1 -> 0 <= u1 < 1 -> 0 <= u2 < 1 ->
  in_workspace_box self (sample_goal_pos self u0 u1 u2).
Proof.
  intros Hsx Hsy H0 H1 H2.
  unfold in_workspace_box, sample_goal_pos, random.uniform; simpl.
  destruct (table_pos self) as [tx ty tz], (table_size self) as [sx sy sz]; simpl in *.
  repeat split; nra.
Qed.

(** A pose returned by the sampler: the position drawn before the loop and
    the quaternion of the first accepted draw. *)
Lemma sample_goal_returns (self : LarccEnv) (u0 u1 u2 : R) (draws : list (R * R * R))
    (pose : ndarray) :
  _sample_goal q2t e2q self u0 u1 u2 draws = Some pose ->
  exists p : Pose,
    pose = pose_array p
    /\ position p = sample_goal_pos self u0 u1 u2
    /\ points_forward_and_down (z_axis_of q2t (quaternion p))
    /\ exists rejected d rest,
         draws = rejected ++ d :: rest
         /\ Forall (fun d' => ~ accepted_draw q2t e2q d') rejected
         /\ quaternion p = (let '(roll, pitch, yaw) := d in e2q roll pitch yaw).
Proof.
  unfold _sample_goal. intros Hpose.
  destruct (sample_goal_loop q2t e2q draws) as [q|] eqn:Hloop; [|discriminate].
  injection Hpose as <-.
  destruct (sample_goal_loop_first draws q Hloop)
    as (rejected & d & rest & Hdraws & Hrej & Hacc & Hq).
  exists (mkPose (sample_goal_pos self u0 u1 u2) q). simpl.
  split; [reflexivity|]. split; [reflexivity|]. split.
  - subst q. now destruct d as [[roll pitch] yaw].
  - now exists rejected, d, rest.
Qed.

End sampler.

(** C2: for an object made by the constructor (and used for any calls since),
    a pose returned by [_sample_goal] has the position drawn before the loop
    from the three uniform draws, inside the box
    [tableX - sizeX/2 + 0.1, tableX + sizeX/2 - 0.1] x
    [tableY - sizeY/2, tableY + sizeY/2 - 0.1] x
    [tableZ + sizeZ/2 + 0.1, tableZ + sizeZ/2 + 0.6], and the quaternion of
    the first draw of Euler angles whose world z-axis is in the orientation
    cone; and the sampler does return once the draws hold such a one. *)
Theorem sample_goal_in_cone_and_box (pd : ndarray -> ndarray -> R) (Info : Type)
    (q2t : array4 -> array4x4) (e2q : R -> R -> R -> array4)
    (rs : bool) (dt k_p k_o : R) (cs : list (call Info))
    (u0 u1 u2 : R) (draws : list (R * R * R)) :
  0 <= u0 < 1 -> 0 <= u1 < 1 -> 0 <= u2 < 1 ->
  let self := run pd Info (__init__ rs dt k_p k_o) cs in
  (forall pose : ndarray,
     _sample_goal q2t e2q self u0 u1 u2 draws = Some pose ->
     exists p : Pose,
       pose = pose_array p
       /\ position p = sample_goal_pos self u0 u1 u2
       /\ in_workspace_box self (position p)
       /\ points_forward_and_down (z_axis_of q2t (quaternion p))
       /\ exists rejected d rest,
            draws = rejected ++ d :: rest
            /\ Forall (fun d' => ~ accepted_draw q2t e2q d') rejected
            /\ quaternion p = (let '(roll, pitch, yaw) := d in e2q roll pitch yaw))
  /\ (Exists (accepted_draw q2t e2q) draws ->
      exists pose : ndarray, _sample_goal q2t e2q self u0 u1 u2 draws = Some pose).
Proof.
  intros H0 H1 H2 self.
  assert (Hbox : in_workspace_box self (sample_goal_pos self u0 u1 u2)).
  { destruct (run_configuration pd Info (__init__ rs dt k_p k_o) cs) as (_ & Hsize & _).
    apply sample_goal_pos_in_box; try assumption;
      unfold self; rewrite Hsize; simpl; lra. }
  split.
  - intros pose Hpose.
    destruct (sample_goal_returns q2t e2q self u0 u1 u2 draws pose Hpose)
      as (p & Hp & Hpos & Hcone & Hfirst).
    exists p. rewrite Hpos.
    split; [exact Hp|]. split; [reflexivity|]. split; [exact Hbox|].
    split; [exact Hcone | exact Hfirst].
  - intros Hex. unfold _sample_goal.
    destruct (sample_goal_loop_terminates q2t e2q draws Hex) as [q ->].
    now eexists.
Qed.

(** The two orientation tests side by side: a goal that the sampler returns
    is inside the box and inside the cone, and the validator rejects it. *)
Lemma validate_initial_qpos_rejects_sampled_goal (pd : ndarray -> ndarray -> R) (Info : Type)
    (q2t : array4 -> array4x4) (e2q : R -> R -> R -> array4)
    (rs : bool) (dt k_p k_o : R) (cs : list (call Info))
    (u0 u1 u2 : R) (draws : list (R * R * R)) (pose : ndarray) :
  0 <= u0 < 1 -> 0 <= u1 < 1 -> 0 <= u2 < 1 ->
  let self := run pd Info (__init__ rs dt k_p k_o) cs in
  _sample_goal q2t e2q self u0 u1 u2 draws = Some pose ->
  validate_initial_qpos q2t self pose = Ok false.
Proof.
  intros H0 H1 H2 self Hpose.
  destruct (sample_goal_returns q2t e2q self u0 u1 u2 draws pose Hpose)
    as (p & -> & Hpos & Hcone & _).
  assert (Hbox : in_workspace_box self (position p)).
  { rewrite Hpos.
    destruct (run_configuration pd Info (__init__ rs dt k_p k_o) cs) as (_ & Hsize & _).
    apply sample_goal_pos_in_box; try assumption;
      unfold self; rewrite Hsize; simpl; lra. }
  pose proof (validate_initial_qpos_accepts_outside_cone q2t self p Hbox) as Hiff.
  destruct (validate_initial_qpos_returns q2t self (pose_array p)) as [[|] Hb];
    [|exact Hb].
  apply Hiff in Hb. contradiction.
Qed.

(** The z-axis of a pure roll under the modelled helpers. *)
Lemma z_axis_of_roll (roll : R) :
  z_axis_of utils.quaternion_to_transformation_matrix (utils.euler_to_quaternion roll 0 0)
  = Array4 0
           (- 2 * (cos (roll / 2) * Rtrigo_def.sin (roll / 2)))
           (1 - 2 * (Rtrigo_def.sin (roll / 2) * Rtrigo_def.sin (roll / 2)))
           0.
Proof.
  unfold z_axis_of, utils.quaternion_to_transformation_matrix, utils.euler_to_quaternion,
    dot_mv, dot4.
  replace (0 / 2) with 0 by lra. rewrite cos_0, sin_0. simpl.
  f_equal; ring.
Qed.

Lemma no_roll_rejected :
  ~ accepted_draw utils.quaternion_to_transformation_matrix utils.euler_to_quaternion (0, 0, 0).
Proof.
  unfold accepted_draw. rewrite z_axis_of_roll.
  unfold points_forward_and_down; simpl.
  replace (0 / 2) with 0 by lra. rewrite sin_0, sin_neg, sin_PI6. lra.
Qed.

Lemma roll_2_atan_2_accepted :
  accepted_draw utils.quaternion_to_transformation_matrix utils.euler_to_quaternion
    (2 * atan 2, 0, 0).
Proof.
  unfold accepted_draw. rewrite z_axis_of_roll.
  replace (2 * atan 2 / 2) with (atan 2) by lra.
  rewrite cos_atan, sin_atan. unfold Rsqr.
  replace (1 + 2 * 2) with 5 by lra.
  assert (Hpos : 0 < sqrt 5) by (apply sqrt_lt_R0; lra).
  assert (Hsq : sqrt 5 * sqrt 5 = 5) by (apply sqrt_sqrt; lra).
  assert (Hcs : 1 / sqrt 5 * (2 / sqrt 5) = 2 / 5).
  { replace (2 / 5) with (2 / (sqrt 5 * sqrt 5)) by (now rewrite Hsq). field. lra. }
  assert (Hss : 2 / sqrt 5 * (2 / sqrt 5) = 4 / 5).
  { replace (4 / 5) with (4 / (sqrt 5 * sqrt 5)) by (now rewrite Hsq). field. lra. }
  rewrite Hcs, Hss.
  unfold points_forward_and_down; simpl.
  rewrite sin_neg, sin_PI6, sin_PI4.
  pose proof inv_sqrt2_bounds. lra.
Qed.

Lemma sample_goal_in_cone_and_box_witness :
  let self := __init__ false 0.02 0.5 0.25 in
  let draws := [(0, 0, 0); (2 * atan 2, 0, 0)] in
  (0 <= 0 < 1 /\ 0 <= 0.5 < 1 /\ 0 <= 0.25 < 1)
  /\ exists pose : ndarray,
       _sample_goal utils.quaternion_to_transformation_matrix utils.euler_to_quaternion
         self 0 0.5 0.25 draws = Some pose.
Proof.
  intros self draws.
  assert (H0 : 0 <= 0 < 1) by lra.
  assert (H1 : 0 <= 0.5 < 1) by lra.
  assert (H2 : 0 <= 0.25 < 1) by lra.
  split; [now repeat split|].
  apply (proj2 (sample_goal_in_cone_and_box utils.point_distance unit
                  utils.quaternion_to_transformation_matrix utils.euler_to_quaternion
                  false 0.02 0.5 0.25 [] 0 0.5 0.25 draws H0 H1 H2)).
  apply Exists_cons_tl, Exists_cons_hd. exact roll_2_atan_2_accepted.
Defined.

(** The sampler on these draws: the first is rejected, the second gives the
    quaternion, and the position is the one of the three uniform draws. *)
Lemma sample_goal_example :
  _sample_goal utils.quaternion_to_transformation_matrix utils.euler_to_quaternion
    (__init__ false 0.02 0.5 0.25) 0 0.5 0.25 [(0, 0, 0); (2 * atan 2, 0, 0)]
  = Some (np.concatenate (sample_goal_pos (__init__ false 0.02 0.5 0.25) 0 0.5 0.25)
                         (utils.euler_to_quaternion (2 * atan 2) 0 0)).
Proof.
  unfold _sample_goal.
  destruct (sample_goal_loop_cons utils.quaternion_to_transformation_matrix
              utils.euler_to_quaternion (0, 0, 0) [(2 * atan 2, 0, 0)])
    as [[Hacc _] | [_ ->]]; [now apply no_roll_rejected in Hacc|].
  destruct (sample_goal_loop_cons utils.quaternion_to_transformation_matrix
              utils.euler_to_quaternion (2 * atan 2, 0, 0) [])
    as [[_ ->] | [Hrej _]]; [reflexivity|].
  exfalso. apply Hrej, roll_2_atan_2_accepted.
Qed.

(** ** More on the reward *)

Lemma clip_range (x lo hi : R) : lo <= hi -> lo <= np.clip x lo hi <= hi.
Proof.
  intros H. unfold np.clip, Rmin, Rmax.
  destruct (Rle_dec x lo); destruct (Rle_dec _ hi); lra.
Qed.

Lemma quat_reward_abs (achieved desired : Pose) :
  spec_quat_reward achieved desired
  = Rabs (quaternion_dot (quaternion desired) (quaternion achieved)).
Proof.
  unfold spec_quat_reward, quaternion_dot, negate_quaternion.
  destruct achieved as [pa [aw ax ay az]], desired as [pd [dw dx dy dz]]; simpl.
  replace (dw * - aw + dx * - ax + dy * - ay + dz * - az)
    with (- (dw * aw + dx * ax + dy * ay + dz * az)) by ring.
  unfold Rmax, Rabs.
  destruct (Rle_dec _ _), (Rcase_abs _); lra.
Qed.

(** Cauchy-Schwarz for two unit quaternions. *)
Lemma unit_quaternion_dot_le_1 (a b : array4) :
  unit_quaternion a -> unit_quaternion b -> Rabs (quaternion_dot a b) <= 1.
Proof.
  unfold unit_quaternion, quaternion_dot.
  destruct a as [a0 a1 a2 a3], b as [b0 b1 b2 b3]; simpl. intros Ha Hb.
  set (d := a0 * b0 + a1 * b1 + a2 * b2 + a3 * b3).
  assert (Hsq : d * d <= 1).
  { assert (Hlag :
      (a0 * a0 + a1 * a1 + a2 * a2 + a3 * a3) * (b0 * b0 + b1 * b1 + b2 * b2 + b3 * b3)
      - d * d
      = (a0 * b1 - a1 * b0)² + (a0 * b2 - a2 * b0)² + (a0 * b3 - a3 * b0)²
        + (a1 * b2 - a2 * b1)² + (a1 * b3 - a3 * b1)² + (a2 * b3 - a3 * b2)²).
    { unfold d, Rsqr. ring. }
    rewrite Ha, Hb in Hlag.
    pose proof (Rle_0_sqr (a0 * b1 - a1 * b0)).
    pose proof (Rle_0_sqr (a0 * b2 - a2 * b0)).
    pose proof (Rle_0_sqr (a0 * b3 - a3 * b0)).
    pose proof (Rle_0_sqr (a1 * b2 - a2 * b1)).
    pose proof (Rle_0_sqr (a1 * b3 - a3 * b1)).
    pose proof (Rle_0_sqr (a2 * b3 - a3 * b2)).
    lra. }
  unfold Rabs. destruct (Rcase_abs d); nra.
Qed.

Lemma bonus_term_cases (self : LarccEnv) (p q : R) :
  (bonus_term self p q = 1%Z /\ 1 - distance_threshold self < p /\ 0.98 < q)
  \/ (bonus_term self p q = 0%Z /\ ~ (1 - distance_threshold self < p /\ 0.98 < q)).
Proof.
  unfold bonus_term, py.gt.
  destruct (Rgt_dec p (1 - distance_threshold self)); simpl.
  - destruct (Rgt_dec q 0.98); [left | right]; repeat split; lra.
  - right. split; [reflexivity | lra].
Qed.

(** X1: the terms of one call on two poses, for any [point_distance]: the
    position term is in [-1, 1], the orientation term is the absolute value
    of the dot product of the two quaternions, so never negative, and the
    bonus term is 0 or 1. *)
Theorem compute_reward_term_ranges (pd : ndarray -> ndarray -> R) (Info : Type)
    (self : LarccEnv) (achieved desired : Pose) (info : Info) :
  exists (r p q : R) (b : Z),
    compute_reward pd self (pose_array achieved) (pose_array desired) info
    = (Ok r, with_rewards self p q b)
    /\ -1 <= p <= 1
    /\ q = Rabs (quaternion_dot (quaternion desired) (quaternion achieved))
    /\ 0 <= q
    /\ (b = 0%Z \/ b = 1%Z).
Proof.
  rewrite compute_reward_on_poses.
  do 4 eexists. split; [reflexivity|].
  split; [apply clip_range; lra|].
  split; [apply quat_reward_abs|].
  split; [rewrite quat_reward_abs; apply Rabs_pos|].
  destruct (bonus_term_cases self (pos_term pd achieved desired)
              (spec_quat_reward achieved desired)) as [[-> _] | [-> _]]; auto.
Qed.

(** X2: with weights kp >= 0, ko >= 0, kp + ko <= 1 and two unit quaternions
    the value returned is between -kp and 1, for any [point_distance]. *)
Theorem compute_reward_bounds (pd : ndarray -> ndarray -> R) (Info : Type)
    (self : LarccEnv) (achieved desired : Pose) (info : Info) :
  0 <= kp self -> 0 <= ko self -> kp self + ko self <= 1 ->
  unit_quaternion (quaternion achieved) ->
  unit_quaternion (quaternion desired) ->
  exists r : R,
    fst (compute_reward pd self (pose_array achieved) (pose_array desired) info) = Ok r
    /\ - kp self <= r <= 1.
Proof.
  intros Hkp Hko Hsum Ha Hd.
  rewrite compute_reward_on_poses. simpl. eexists. split; [reflexivity|].
  pose proof (clip_range (1 - pd (position_array desired) (position_array achieved)) (-1) 1)
    as Hp.
  fold (pos_term pd achieved desired) in Hp.
  assert (Hq : 0 <= spec_quat_reward achieved desired <= 1).
  { rewrite quat_reward_abs. split; [apply Rabs_pos|].
    now apply unit_quaternion_dot_le_1. }
  set (p := pos_term pd achieved desired) in *.
  set (q := spec_quat_reward achieved desired) in *.
  assert (Hp' : -1 <= p <= 1) by (apply Hp; lra).
  destruct (bonus_term_cases self p q) as [[-> _] | [-> _]]; simpl; nra.
Qed.

Lemma compute_reward_bounds_witness :
  let self := __init__ false 0.02 0.5 0.25 in
  let achieved := mkPose (Array3 0.1 0.16 1) (Array4 1 0 0 0) in
  let desired := mkPose (Array3 0.4 0.56 1) (Array4 0 1 0 0) in
  (0 <= kp self /\ 0 <= ko self /\ kp self + ko self <= 1)
  /\ unit_quaternion (quaternion achieved)
  /\ unit_quaternion (quaternion desired)
  /\ exists r : R,
       fst (compute_reward utils.point_distance self (pose_array achieved)
              (pose_array desired) tt) = Ok r
       /\ - kp self <= r <= 1.
Proof.
  intros self achieved desired.
  assert (Hkp : 0 <= kp self) by (simpl; lra).
  assert (Hko : 0 <= ko self) by (simpl; lra).
  assert (Hsum : kp self + ko self <= 1) by (simpl; lra).
  assert (Ha : unit_quaternion (quaternion achieved)) by (unfold unit_quaternion; simpl; lra).
  assert (Hd : unit_quaternion (quaternion desired)) by (unfold unit_quaternion; simpl; lra).
  split; [now repeat split|]. split; [exact Ha|]. split; [exact Hd|].
  exact (compute_reward_bounds utils.point_distance unit self achieved desired tt
           Hkp Hko Hsum Ha Hd).
Defined.

Lemma pos_term_gt_iff (pd : ndarray -> ndarray -> R) (achieved desired : Pose) (dt : R) :
  dt <= 2 ->
  0 <= pd (position_array desired) (position_array achieved) ->
  (1 - dt < pos_term pd achieved desired
   <-> pd (position_array desired) (position_array achieved) < dt).
Proof.
  intros Hdt Hd. unfold pos_term, np.clip, Rmin, Rmax.
  destruct (Rle_dec _ (-1)); destruct (Rle_dec _ 1); lra.
Qed.

(** X3: with a distance threshold of at most 2 and a distance that is not
    negative, the object is successful after a call of [compute_reward]
    exactly when [point_distance] of the two positions is below the threshold
    and the absolute value of the dot product of the two quaternions is above
    0.98. *)
Theorem is_success_iff_close (pd : ndarray -> ndarray -> R) (Info : Type)
    (self : LarccEnv) (achieved desired : Pose) (info : Info) (a d : ndarray) :
  distance_threshold self <= 2 ->
  0 <= pd (position_array desired) (position_array achieved) ->
  (_is_success
     (snd (compute_reward pd self (pose_array achieved) (pose_array desired) info)) a d
   = Ok true
   <-> pd (position_array desired) (position_array achieved) < distance_threshold self
       /\ 0.98 < Rabs (quaternion_dot (quaternion desired) (quaternion achieved))).
Proof.
  intros Hdt Hd.
  rewrite compute_reward_on_poses. simpl snd.
  rewrite (is_success_last _ a d (bonus_rewards self)
             (bonus_term self (pos_term pd achieved desired)
                (spec_quat_reward achieved desired))) by reflexivity.
  rewrite <- quat_reward_abs, <- (pos_term_gt_iff pd achieved desired _ Hdt Hd).
  destruct (bonus_term_cases self (pos_term pd achieved desired)
              (spec_quat_reward achieved desired)) as [[-> H] | [-> H]]; simpl.
  - tauto.
  - split; [discriminate | tauto].
Qed.

Lemma is_success_iff_close_witness :
  let self := __init__ false 0.02 0.5 0.25 in
  let achieved := mkPose (Array3 0.1 0.16 1) (Array4 1 0 0 0) in
  let desired := mkPose (Array3 0.4 0.56 1) (Array4 1 0 0 0) in
  distance_threshold self <= 2
  /\ 0 <= utils.point_distance (position_array desired) (position_array achieved)
  /\ (_is_success
        (snd (compute_reward utils.point_distance self (pose_array achieved)
                (pose_array desired) tt)) [] [] = Ok true
      <-> utils.point_distance (position_array desired) (position_array achieved)
          < distance_threshold self
          /\ 0.98 < Rabs (quaternion_dot (quaternion desired) (quaternion achieved))).
Proof.
  intros self achieved desired.
  assert (Hdt : distance_threshold self <= 2) by (simpl; lra).
  assert (Hd : 0 <= utils.point_distance (position_array desired) (position_array achieved))
    by apply sqrt_pos.
  split; [exact Hdt|]. split; [exact Hd|].
  exact (is_success_iff_close utils.point_distance unit self achieved desired tt [] [] Hdt Hd).
Defined.

(** X4: with a distance threshold above 2 the position test of the bonus
    always passes, because the position term is never below -1: the object
    is successful after a call exactly when the absolute value of the dot
    product of the two quaternions is above 0.98, however far apart the two
    positions are. *)
Theorem is_success_large_threshold (pd : ndarray -> ndarray -> R) (Info : Type)
    (self : LarccEnv) (achieved desired : Pose) (info : Info) (a d : ndarray) :
  2 < distance_threshold self ->
  (_is_success
     (snd (compute_reward pd self (pose_array achieved) (pose_array desired) info)) a d
   = Ok true
   <-> 0.98 < Rabs (quaternion_dot (quaternion desired) (quaternion achieved))).
Proof.
  intros Hdt.
  rewrite compute_reward_on_poses. simpl snd.
  rewrite (is_success_last _ a d (bonus_rewards self)
             (bonus_term self (pos_term pd achieved desired)
                (spec_quat_reward achieved desired))) by reflexivity.
  rewrite <- quat_reward_abs.
  pose proof (clip_range (1 - pd (position_array desired) (position_array achieved)) (-1) 1)
    as Hp.
  fold (pos_term pd achieved desired) in Hp.
  destruct (bonus_term_cases self (pos_term pd achieved desired)
              (spec_quat_reward achieved desired)) as [[-> H] | [-> H]]; simpl.
  - tauto.
  - split; [discriminate|]. intros Hq. exfalso. apply H. split; lra.
Qed.

Lemma is_success_large_threshold_witness :
  let self := __init__ false 3 0.5 0.25 in
  let achieved := mkPose (Array3 0.1 0.16 1) (Array4 1 0 0 0) in
  let desired := mkPose (Array3 0.4 0.56 1) (Array4 1 0 0 0) in
  2 < distance_threshold self
  /\ (_is_success
        (snd (compute_reward utils.point_distance self (pose_array achieved)
                (pose_array desired) tt)) [] [] = Ok true
      <-> 0.98 < Rabs (quaternion_dot (quaternion desired) (quaternion achieved))).
Proof.
  intros self achieved desired.
  assert (Hdt : 2 < distance_threshold self) by (simpl; lra).
  split; [exact Hdt|].
  exact (is_success_large_threshold utils.point_distance unit self achieved desired tt
           [] [] Hdt).
Defined.

(** X5: swapping the achieved and the desired pose changes neither the value
    returned nor the entries appended, when [point_distance] gives the same
    distance in both directions. *)
Theorem compute_reward_swap (pd : ndarray -> ndarray -> R) (Info : Type)
    (self : LarccEnv) (achieved desired : Pose) (info : Info) :
  pd (position_array desired) (position_array achieved)
  = pd (position_array achieved) (position_array desired) ->
  compute_reward pd self (pose_array desired) (pose_array achieved) info
  = compute_reward pd self (pose_array achieved) (pose_array desired) info.
Proof.
  intros Hsym. rewrite !compute_reward_on_poses.
  assert (Hp : pos_term pd desired achieved = pos_term pd achieved desired).
  { unfold pos_term. now rewrite Hsym. }
  assert (Hq : spec_quat_reward desired achieved = spec_quat_reward achieved desired).
  { rewrite !quat_reward_abs. f_equal. unfold quaternion_dot. ring. }
  now rewrite Hp, Hq.
Qed.

Lemma compute_reward_swap_witness :
  let self := __init__ false 0.02 0.5 0.25 in
  let achieved := mkPose (Array3 0.1 0.16 1) (Array4 1 0 0 0) in
  let desired := mkPose (Array3 0.4 0.56 1) (Array4 0 1 0 0) in
  utils.point_distance (position_array desired) (position_array achieved)
  = utils.point_distance (position_array achieved) (position_array desired)
  /\ compute_reward utils.point_distance self (pose_array desired) (pose_array achieved) tt
     = compute_reward utils.point_distance self (pose_array achieved) (pose_array desired) tt.
Proof.
  intros self achieved desired.
  assert (Hsym : utils.point_distance (position_array desired) (position_array achieved)
                 = utils.point_distance (position_array achieved) (position_array desired)).
  { unfold utils.point_distance, position_array; simpl. f_equal. lra. }
  split; [exact Hsym|].
  exact (compute_reward_swap utils.point_distance unit self achieved desired tt Hsym).
Defined.

Lemma with_rewards_fields (self : LarccEnv) (p q : R) (b : Z) :
  pos_rewards (with_rewards self p q b) = pos_rewards self ++ [p]
  /\ quat_rewards (with_rewards self p q b) = quat_rewards self ++ [q]
  /\ bonus_rewards (with_rewards self p q b) = bonus_rewards self ++ [b]
  /\ distance_threshold (with_rewards self p q b) = distance_threshold self.
Proof. now repeat split. Qed.

(** X6: the histories record the calls in their order: after a sequence of
    calls of [compute_reward] on pairs of poses, each history is what it was
    before followed by the terms of the calls, first call first. *)
Theorem reward_histories_in_call_order (pd : ndarray -> ndarray -> R) (Info : Type)
    (self : LarccEnv) (calls : list (Pose * Pose * Info)) :
  let cs :=
    map (fun c => call_compute_reward Info (pose_array (fst (fst c)))
                    (pose_array (snd (fst c))) (snd c)) calls in
  pos_rewards (run pd Info self cs)
  = pos_rewards self ++ map (fun c => pos_term pd (fst (fst c)) (snd (fst c))) calls
  /\ quat_rewards (run pd Info self cs)
     = quat_rewards self ++ map (fun c => spec_quat_reward (fst (fst c)) (snd (fst c))) calls
  /\ bonus_rewards (run pd Info self cs)
     = bonus_rewards self
       ++ map (fun c => bonus_term self (pos_term pd (fst (fst c)) (snd (fst c)))
                          (spec_quat_reward (fst (fst c)) (snd (fst c)))) calls.
Proof.
  simpl. revert self.
  induction calls as [|[[a g] i] calls IH]; intros self.
  - simpl. now rewrite !app_nil_r.
  - cbn [map fst snd]. unfold run in *. cbn [fold_left exec].
    rewrite compute_reward_on_poses. cbn [snd].
    set (next := with_rewards self (pos_term pd a g) (spec_quat_reward a g)
                   (bonus_term self (pos_term pd a g) (spec_quat_reward a g))).
    destruct (IH next) as (Hp & Hq & Hb).
    destruct (with_rewards_fields self (pos_term pd a g) (spec_quat_reward a g)
                (bonus_term self (pos_term pd a g) (spec_quat_reward a g)))
      as (Ep & Eq & Eb & Edt).
    fold next in Ep, Eq, Eb, Edt.
    rewrite Hp, Hq, Hb, Ep, Eq, Eb, <- !app_assoc. cbn [app].
    split; [reflexivity|]. split; [reflexivity|].
    do 2 f_equal.
Qed.

(** ** More on the validator *)

(** An accepted pose is inside the box. *)
Lemma validate_initial_qpos_true_in_box (q2t : array4 -> array4x4) (self : LarccEnv)
    (p : Pose) :
  validate_initial_qpos q2t self (pose_array p) = Ok true ->
  in_workspace_box self (position p).
Proof.
  intros Htrue.
  destruct p as [[px py pz] [w x y z]].
  unfold validate_initial_qpos in Htrue; simpl in Htrue.
  destruct (py.lt px _ || py.gt px _) eqn:Ex; [discriminate|].
  destruct (py.lt py _ || py.gt py _) eqn:Ey; [discriminate|].
  destruct (py.lt pz _ || py.gt pz _) eqn:Ez; [discriminate|].
  apply orb_false_iff in Ex, Ey, Ez.
  rewrite lt_false_iff, gt_false_iff in Ex, Ey, Ez.
  unfold in_workspace_box; simpl. tauto.
Qed.

(** X7: [validate_initial_qpos] never raises, on an array of any length, and
    it answers [True] only for an array of 7 scalars whose position is inside
    the box. *)
Theorem validate_initial_qpos_total_and_boxed
    (q2t : array4 -> array4x4) (self : LarccEnv) (qpos : ndarray) :
  (exists b : bool, validate_initial_qpos q2t self qpos = Ok b)
  /\ (validate_initial_qpos q2t self qpos = Ok true ->
      exists p : Pose, qpos = pose_array p /\ in_workspace_box self (position p)).
Proof.
  split; [apply validate_initial_qpos_returns|].
  intros Htrue.
  destruct (Nat.eq_dec (length qpos) 7) as [Hlen | Hlen].
  - destruct (pose_array_of_length_7 qpos Hlen) as [p ->].
    exists p. split; [reflexivity|].
    now apply validate_initial_qpos_true_in_box with q2t.
  - unfold validate_initial_qpos in Htrue.
    destruct (length qpos =? 7)%nat eqn:E; simpl in Htrue; [|discriminate].
    apply Nat.eqb_eq in E. contradiction.
Qed.

Lemma validate_initial_qpos_total_and_boxed_witness :
  let self := __init__ false 0.02 0.5 0.25 in
  let p := mkPose (Array3 0.1 0.16 1) (Array4 1 0 0 0) in
  validate_initial_qpos utils.quaternion_to_transformation_matrix self (pose_array p) = Ok true
  /\ exists p0 : Pose, pose_array p = pose_array p0 /\ in_workspace_box self (position p0).
Proof.
  intros self p.
  assert (Hbox : in_workspace_box self (position p)).
  { unfold in_workspace_box; simpl; lra. }
  assert (Htrue : validate_initial_qpos utils.quaternion_to_transformation_matrix self
                    (pose_array p) = Ok true).
  { apply validate_initial_qpos_accepts_outside_cone; [exact Hbox|].
    unfold points_forward_and_down, z_axis_of, utils.quaternion_to_transformation_matrix,
      dot_mv, dot4; simpl.
    rewrite sin_neg, sin_PI6. lra. }
  split; [exact Htrue|].
  exact (proj2 (validate_initial_qpos_total_and_boxed
                  utils.quaternion_to_transformation_matrix self (pose_array p)) Htrue).
Defined.

(** ** The action *)

Lemma clip_near (x d : R) :
  - PI <= x <= PI -> Rabs (np.clip (x + d) (- np.pi) np.pi - x) <= Rabs d.
Proof.
  intros Hx. unfold np.clip, np.pi, Rmin, Rmax.
  pose proof PI_RGT_0 as Hpi.
  destruct (Rle_dec (x + d) (- PI)); destruct (Rle_dec _ PI);
    unfold Rabs; destruct (Rcase_abs _); destruct (Rcase_abs d); lra.
Qed.

Lemma clip_pi_range (x : R) : - PI <= np.clip x (- np.pi) np.pi <= PI.
Proof.
  pose proof PI_RGT_0 as Hpi. apply (clip_range x (- PI) PI). lra.
Qed.

Section action.

Context {M : Simulator}.
Hypothesis Hstore : joint_store M.

(** [_set_action] on an action of 6 scalars: every joint is written with its
    position plus the scaled action, clipped to [-pi, pi]. *)
Lemma set_action_6 (s : sim) (a0 a1 a2 a3 a4 a5 : R) :
  exists s' : sim,
    _set_action s [a0; a1; a2; a3; a4; a5] = (Ok tt, s')
    /\ map (get_joint_qpos s') joint_names
       = np.clip_array
           [get_joint_qpos s "shoulder_pan_joint"%string + a0 * 0.08;
            get_joint_qpos s "shoulder_lift_joint"%string + a1 * 0.08;
            get_joint_qpos s "elbow_joint"%string + a2 * 0.12;
            get_joint_qpos s "wrist_1_joint"%string + a3 * 0.12;
            get_joint_qpos s "wrist_2_joint"%string + a4 * 0.12;
            get_joint_qpos s "wrist_3_joint"%string + a5 * 0.12] (- np.pi) np.pi
    /\ forall other : String.string,
         ~ In other joint_names -> get_joint_qpos s' other = get_joint_qpos s other.
Proof.
  destruct Hstore as [Hsame Hother].
  eexists. split; [reflexivity|]. split.
  - cbn [map joint_names np.clip_array].
    repeat (rewrite ?Hsame; rewrite ?Hother by discriminate). reflexivity.
  - intros other Hnot. cbn [In joint_names] in Hnot.
    rewrite !Hother; [reflexivity | | | | | |]; intros E; apply Hnot; rewrite E; tauto.
Qed.

(** [_set_action] on an action of one scalar: the scalar is scaled by 0.08
    and broadcast to the six joints. *)
Lemma set_action_1 (s : sim) (a : R) :
  exists s' : sim,
    _set_action s [a] = (Ok tt, s')
    /\ map (get_joint_qpos s') joint_names
       = np.clip_array (map (fun x => x + a * 0.08) (map (get_joint_qpos s) joint_names))
           (- np.pi) np.pi
    /\ forall other : String.string,
         ~ In other joint_names -> get_joint_qpos s' other = get_joint_qpos s other.
Proof.
  destruct Hstore as [Hsame Hother].
  eexists. split; [reflexivity|]. split.
  - cbn [map joint_names np.clip_array].
    repeat (rewrite ?Hsame; rewrite ?Hother by discriminate). reflexivity.
  - intros other Hnot. cbn [In joint_names] in Hnot.
    rewrite !Hother; [reflexivity | | | | | |]; intros E; apply Hnot; rewrite E; tauto.
Qed.

End action.

Lemma store_simulator_joint_store : joint_store store_simulator.
Proof.
  split.
  - intros s name v. simpl. now rewrite String.eqb_refl.
  - intros s name other v Hne. simpl.
    destruct (String.eqb_spec name other); [contradiction | reflexivity].
Qed.

Lemma Forall_clip_array (l : ndarray) :
  Forall (fun x => - PI <= x <= PI) (np.clip_array l (- np.pi) np.pi).
Proof.
  unfold np.clip_array. apply Forall_map, Forall_forall.
  intros x _. apply clip_pi_range.
Qed.

(** X8: after [_set_action] with an action of 6 scalars (or of one scalar,
    which is broadcast) the call returns, each of the six joints of
    [joint_names] is in [-pi, pi], and no other joint has changed. *)
Theorem set_action_keeps_joints_in_range (M : Simulator) (s : sim) (action : ndarray) :
  joint_store M ->
  length action = 6%nat \/ length action = 1%nat ->
  exists s' : sim,
    _set_action s action = (Ok tt, s')
    /\ Forall (fun name => - PI <= get_joint_qpos s' name <= PI) joint_names
    /\ forall other : String.string,
         ~ In other joint_names -> get_joint_qpos s' other = get_joint_qpos s other.
Proof.
  intros Hstore [Hlen | Hlen].
  - do 6 (destruct action as [|? action]; [discriminate|]).
    destruct action; [|discriminate].
    destruct (set_action_6 Hstore s r r0 r1 r2 r3 r4) as (s' & Hrun & Hget & Hother).
    exists s'. split; [exact Hrun|]. split; [|exact Hother].
    apply (proj1 (Forall_map (get_joint_qpos s') (fun x => - PI <= x <= PI) joint_names)).
    rewrite Hget. apply Forall_clip_array.
  - destruct action as [|a action]; [discriminate|].
    destruct action; [|discriminate].
    destruct (set_action_1 Hstore s a) as (s' & Hrun & Hget & Hother).
    exists s'. split; [exact Hrun|]. split; [|exact Hother].
    apply (proj1 (Forall_map (get_joint_qpos s') (fun x => - PI <= x <= PI) joint_names)).
    rewrite Hget. apply Forall_clip_array.
Qed.

Lemma set_action_keeps_joints_in_range_witness :
  let s := mkStoreSim (fun _ => 0) [] in
  joint_store store_simulator
  /\ exists s' : store_sim,
       _set_action s [100; -100; 0; 0.5; 1; -1] = (Ok tt, s')
       /\ Forall (fun name => - PI <= get_joint_qpos s' name <= PI) joint_names.
Proof.
  intros s.
  split; [exact store_simulator_joint_store|].
  destruct (set_action_keeps_joints_in_range store_simulator s [100; -100; 0; 0.5; 1; -1]
              store_simulator_joint_store (or_introl eq_refl)) as (s' & Hrun & Hrange & _).
  exists s'. split; [exact Hrun | exact Hrange].
Defined.

(** X9: a joint that is in [-pi, pi] before [_set_action] moves by at most
    0.08 times the absolute value of its action for the first two joints of
    [joint_names], and by at most 0.12 times it for the four others. *)
Theorem set_action_step_bound (M : Simulator) (s : sim) (action : ndarray)
    (k : nat) (name : String.string) (a : R) :
  joint_store M ->
  length action = 6%nat ->
  nth_error joint_names k = Some name ->
  nth_error action k = Some a ->
  - PI <= get_joint_qpos s name <= PI ->
  exists s' : sim,
    _set_action s action = (Ok tt, s')
    /\ Rabs (get_joint_qpos s' name - get_joint_qpos s name)
       <= (if (k <? 2)%nat then 0.08 else 0.12) * Rabs a.
Proof.
  intros Hstore Hlen Hname Ha Hrange.
  do 6 (destruct action as [|? action]; [discriminate|]).
  destruct action; [|discriminate].
  destruct (set_action_6 Hstore s r r0 r1 r2 r3 r4) as (s' & Hrun & Hget & _).
  exists s'. split; [exact Hrun|].
  cbn [map joint_names np.clip_array] in Hget.
  injection Hget as H0 H1 H2 H3 H4 H5.
  assert (Hscale : forall c : R, 0 <= c -> Rabs (a * c) = c * Rabs a).
  { intros c Hc. rewrite Rabs_mult, (Rabs_pos_eq c Hc). ring. }
  do 6 (destruct k as [|k];
        [ injection Hname as <-; injection Ha as <-;
          first [rewrite H0 | rewrite H1 | rewrite H2 | rewrite H3 | rewrite H4 | rewrite H5];
          cbn [Nat.ltb Nat.leb];
          rewrite <- Hscale by lra; now apply clip_near
        | ]).
  destruct k; discriminate.
Qed.

Lemma set_action_step_bound_witness :
  let s := mkStoreSim (fun _ => 0) [] in
  joint_store store_simulator
  /\ (- PI <= get_joint_qpos s "elbow_joint"%string <= PI)
  /\ exists s' : store_sim,
       _set_action s [1; 1; -1; 1; 1; 1] = (Ok tt, s')
       /\ Rabs (get_joint_qpos s' "elbow_joint"%string - get_joint_qpos s "elbow_joint"%string)
          <= 0.12 * Rabs (-1).
Proof.
  intros s.
  assert (Hrange : - PI <= get_joint_qpos s "elbow_joint"%string <= PI).
  { simpl. pose proof PI_RGT_0. lra. }
  split; [exact store_simulator_joint_store|]. split; [exact Hrange|].
  exact (set_action_step_bound store_simulator s [1; 1; -1; 1; 1; 1] 2 "elbow_joint"%string (-1)
           store_simulator_joint_store eq_refl eq_refl eq_refl Hrange).
Defined.

Lemma imul_slices_length (action : ndarray) :
  length (np.imul_slice_from 2 0.12 (np.imul_slice_to 2 0.08 action)) = length action.
Proof.
  unfold np.imul_slice_from, np.imul_slice_to.
  rewrite !length_app, !length_map, <- length_app, firstn_skipn.
  now rewrite !length_app, !length_map, <- length_app, firstn_skipn.
Qed.

(** X10: an action whose length is neither 6 nor 1 makes [_set_action] raise
    a [ValueError] at the addition, before any joint is written: the
    simulator is left as it was. *)
Theorem set_action_wrong_length (M : Simulator) (s : sim) (action : ndarray) :
  length action <> 6%nat ->
  length action <> 1%nat ->
  _set_action s action = (Raise ValueError, s).
Proof.
  intros H6 H1. unfold _set_action.
  pose proof (imul_slices_length action) as Hlen.
  set (scaled := np.imul_slice_from 2 0.12 (np.imul_slice_to 2 0.08 action)) in *.
  unfold np.add. cbn [map joint_names length].
  destruct (6 =? length scaled)%nat eqn:E.
  - apply Nat.eqb_eq in E. congruence.
  - destruct scaled as [|y [|y' scaled]]; simpl in Hlen; try reflexivity.
    congruence.
Qed.

Lemma set_action_wrong_length_witness :
  let s := mkStoreSim (fun _ => 0) [] in
  length [1; 1] <> 6%nat /\ length [1; 1] <> 1%nat
  /\ _set_action s [1; 1] = (Raise ValueError, s).
Proof.
  intros s.
  assert (H6 : length [1; 1] <> 6%nat) by discriminate.
  assert (H1 : length [1; 1] <> 1%nat) by discriminate.
  split; [exact H6|]. split; [exact H1|].
  exact (set_action_wrong_length store_simulator s [1; 1] H6 H1).
Defined.

(** ** The observation *)

(** X11: the observation after an action is the observation before it plus
    the scaled action (0.08 for the first two joints, 0.12 for the others),
    clipped to [-pi, pi]. *)
Theorem get_obs_after_set_action (M : Simulator) (self : LarccEnv) (s : sim)
    (a0 a1 a2 a3 a4 a5 : R) :
  joint_store M ->
  exists s' : sim,
    _set_action s [a0; a1; a2; a3; a4; a5] = (Ok tt, s')
    /\ Ok (obs_observation (_get_obs self s'))
       = (moved <- np.add (obs_observation (_get_obs self s))
                     [a0 * 0.08; a1 * 0.08; a2 * 0.12; a3 * 0.12; a4 * 0.12; a5 * 0.12] ;;
          Ok (np.clip_array moved (- np.pi) np.pi)).
Proof.
  intros Hstore.
  destruct (set_action_6 Hstore s a0 a1 a2 a3 a4 a5) as (s' & Hrun & Hget & _).
  exists s'. split; [exact Hrun|].
  cbn [_get_obs obs_observation]. rewrite Hget. reflexivity.
Qed.

Lemma get_obs_after_set_action_witness :
  let s := mkStoreSim (fun _ => 0) [] in
  let self := __init__ false 0.02 0.5 0.25 in
  joint_store store_simulator
  /\ exists s' : store_sim,
       _set_action s [1; 1; 1; 1; 1; 1] = (Ok tt, s')
       /\ Ok (obs_observation (_get_obs self s'))
          = (moved <- np.add (obs_observation (_get_obs self s))
                        [1 * 0.08; 1 * 0.08; 1 * 0.12; 1 * 0.12; 1 * 0.12; 1 * 0.12] ;;
             Ok (np.clip_array moved (- np.pi) np.pi)).
Proof.
  intros s self.
  split; [exact store_simulator_joint_store|].
  exact (get_obs_after_set_action store_simulator self s
           1 1 1 1 1 1 store_simulator_joint_store).
Defined.

Lemma exec_goal (pd : ndarray -> ndarray -> R) (Info : Type) (self : LarccEnv)
    (c : call Info) :
  match c with call_set_goal _ _ => False | _ => True end ->
  goal (exec pd Info self c) = goal self.
Proof.
  destruct c; simpl; try tauto. intros _.
  unfold compute_reward.
  destruct (np.dot _ _); [destruct (np.dot _ _)|]; reflexivity.
Qed.

Lemma run_goal (pd : ndarray -> ndarray -> R) (Info : Type) (self : LarccEnv)
    (cs : list (call Info)) :
  Forall (fun c => match c with call_set_goal _ _ => False | _ => True end) cs ->
  goal (run pd Info self cs) = goal self.
Proof.
  intros H. revert self. induction H as [|c cs Hc _ IH]; intros self; simpl.
  - reflexivity.
  - fold (run pd Info (exec pd Info self c) cs). rewrite IH. now apply exec_goal.
Qed.

(** X12: the desired goal of an observation is the argument of the last call
    of [set_goal], when that array is not empty, whatever calls other than
    [set_goal] have been made since; it is an array of seven zeros when no
    goal has been set since the constructor. *)
Theorem get_obs_desired_goal (M : Simulator) (pd : ndarray -> ndarray -> R) (Info : Type)
    (rs : bool) (dt k_p k_o : R) (self : LarccEnv) (g : ndarray)
    (cs : list (call Info)) (s : sim) :
  Forall (fun c => match c with call_set_goal _ _ => False | _ => True end) cs ->
  g <> [] ->
  obs_desired_goal (_get_obs (run pd Info (set_goal self g) cs) s) = g
  /\ obs_desired_goal (_get_obs (run pd Info (__init__ rs dt k_p k_o) cs) s)
     = [0; 0; 0; 0; 0; 0; 0].
Proof.
  intros Hcs Hg. unfold _get_obs; cbn [obs_desired_goal].
  rewrite !(run_goal pd Info _ cs Hcs). simpl. split; [|reflexivity].
  destruct g; [contradiction | reflexivity].
Qed.

Lemma get_obs_desired_goal_witness :
  let s := mkStoreSim (fun _ => 0) [] in
  let g := [0.1; 0.16; 1; 1; 0; 0; 0] in
  let cs := [call_compute_reward unit g g tt; call_is_success unit g g] in
  Forall (fun c => match c with call_set_goal _ _ => False | _ => True end) cs
  /\ g <> []
  /\ obs_desired_goal
       (_get_obs (run utils.point_distance unit
                    (set_goal (__init__ false 0.02 0.5 0.25) g) cs) s) = g.
Proof.
  intros s g cs.
  assert (Hcs : Forall (fun c => match c with call_set_goal _ _ => False | _ => True end) cs).
  { repeat constructor. }
  assert (Hg : g <> []) by discriminate.
  split; [exact Hcs|]. split; [exact Hg|].
  exact (proj1 (get_obs_desired_goal store_simulator utils.point_distance unit
                  false 0.02 0.5 0.25 (__init__ false 0.02 0.5 0.25) g cs s Hcs Hg)).
Defined.

(** ** The reset *)

Section reset.

Context {M : Simulator}.
Variable q2t : array4 -> array4x4.

Lemma robot_in_table_false_iff (self : LarccEnv) (s : sim) :
  robot_in_table self s = false
  <-> Forall (fun name => a3_2 (table_size self) <= a3_2 (xpos s name)) link_names.
Proof.
  unfold robot_in_table, link_names. cbn [fold_left]. split.
  - intros H.
    repeat match type of H with
           | (if py.lt ?a ?b then _ else _) = _ =>
               let E := fresh "E" in destruct (py.lt a b) eqn:E; [discriminate|]
           end.
    repeat (apply Forall_cons; [now apply lt_false_iff|]). apply Forall_nil.
  - intros H.
    repeat match type of H with
           | Forall _ (_ :: _) =>
               let Hx := fresh "Hx" in
               let Hl := fresh "Hl" in
               apply Forall_cons_iff in H as [Hx Hl];
               apply lt_false_iff in Hx; rewrite Hx; rename Hl into H
           end.
    reflexivity.
Qed.

(** What the loop has checked when it returns. *)
Lemma reset_loop_returns (self : LarccEnv) (draws : list ndarray) (s s' : sim)
    (r : result unit) :
  reset_loop q2t self s draws = Some (r, s') ->
  r = Ok tt
  /\ validate_initial_qpos q2t self (get_eef s') = Ok true
  /\ robot_in_table self s' = false.
Proof.
  revert s. induction draws as [|c draws IH]; intros s; [discriminate|].
  cbn [reset_loop]. cbv zeta.
  destruct (validate_initial_qpos_returns q2t self (get_eef (reset_candidate s c)))
    as [b Hb].
  rewrite Hb. destruct b; [|apply IH].
  destruct (robot_in_table self (reset_candidate s c)) eqn:Ht; cbn [negb]; [apply IH|].
  intros [= <- <-]. auto.
Qed.

(** One turn of the loop. *)
Lemma reset_loop_cons (self : LarccEnv) (s : sim) (c : ndarray) (draws : list ndarray) :
  (reset_accepts q2t self s c
   /\ reset_loop q2t self s (c :: draws) = Some (Ok tt, reset_candidate s c))
  \/ (~ reset_accepts q2t self s c
      /\ reset_loop q2t self s (c :: draws)
         = reset_loop q2t self (reset_candidate s c) draws).
Proof.
  unfold reset_accepts. cbn [reset_loop]. cbv zeta.
  destruct (validate_initial_qpos_returns q2t self (get_eef (reset_candidate s c)))
    as [b Hb].
  rewrite Hb. destruct b.
  - destruct (robot_in_table self (reset_candidate s c)) eqn:Ht; cbn [negb].
    + right. split; [|reflexivity]. intros [_ H]. discriminate.
    + left. auto.
  - right. split; [|reflexivity]. intros [H _]. discriminate.
Qed.

(** The loop returns at the first candidate that it accepts in the state
    that the candidates before it have left. *)
Lemma reset_loop_first (self : LarccEnv) (rejected : list ndarray) (s : sim)
    (c : ndarray) (rest : list ndarray) :
  (forall pre c' post,
     rejected = pre ++ c' :: post ->
     ~ reset_accepts q2t self (fold_left reset_candidate pre s) c') ->
  reset_accepts q2t self (fold_left reset_candidate rejected s) c ->
  reset_loop q2t self s (rejected ++ c :: rest)
  = Some (Ok tt, reset_candidate (fold_left reset_candidate rejected s) c).
Proof.
  revert s. induction rejected as [|c0 rejected IH]; intros s Hrej Hacc.
  - cbn [app fold_left] in *.
    destruct (reset_loop_cons self s c rest) as [[_ ->] | [H _]];
      [reflexivity | contradiction].
  - cbn [app fold_left] in *.
    destruct (reset_loop_cons self s c0 (rejected ++ c :: rest)) as [[H _] | [_ ->]].
    + exfalso. now apply (Hrej [] c0 rejected).
    + apply IH; [|exact Hacc].
      intros pre c' post ->. now apply (Hrej (c0 :: pre) c' post).
Qed.

Lemma reset_sim_first (self : LarccEnv) (s : sim) (rejected : list ndarray) (c : ndarray)
    (rest : list ndarray) :
  random_start self = true ->
  (forall pre c' post,
     rejected = pre ++ c' :: post ->
     ~ reset_accepts q2t self (fold_left reset_candidate pre (restore_initial s)) c') ->
  reset_accepts q2t self (fold_left reset_candidate rejected (restore_initial s)) c ->
  _reset_sim q2t self s (rejected ++ c :: rest)
  = Some (Ok true,
          reset_candidate (fold_left reset_candidate rejected (restore_initial s)) c).
Proof.
  intros Hrs Hrej Hacc. unfold _reset_sim. rewrite Hrs.
  now rewrite (reset_loop_first self rejected (restore_initial s) c rest Hrej Hacc).
Qed.

End reset.

(** X13: when [_reset_sim] returns, it returns [True] and has not raised.
    Without [random_start] the simulator is in its initial state and no
    candidate has been tried; with [random_start] the pose of the end
    effector in the final state is one that [validate_initial_qpos] answers
    [True] on, its position is inside the box, and none of the six links is
    lower than [table_size[2]]. *)
Theorem reset_sim_returns (M : Simulator) (q2t : array4 -> array4x4)
    (self : LarccEnv) (s s' : sim) (draws : list ndarray) (r : result bool) :
  _reset_sim q2t self s draws = Some (r, s') ->
  r = Ok true
  /\ (random_start self = false -> s' = restore_initial s)
  /\ (random_start self = true ->
      validate_initial_qpos q2t self (get_eef s') = Ok true
      /\ in_workspace_box self (xpos s' "eef"%string)
      /\ Forall (fun name => a3_2 (table_size self) <= a3_2 (xpos s' name)) link_names).
Proof.
  unfold _reset_sim. destruct (random_start self).
  - destruct (reset_loop q2t self (restore_initial s) draws) as [[r0 s0]|] eqn:Hloop;
      [|discriminate].
    destruct (reset_loop_returns q2t self draws _ _ _ Hloop) as (-> & Hv & Ht).
    intros [= <- <-]. split; [reflexivity|]. split; [discriminate|].
    intros _. split; [exact Hv|]. split; [|now apply robot_in_table_false_iff].
    exact (validate_initial_qpos_true_in_box q2t self
             (mkPose (xpos s0 "eef"%string) (xquat s0 "eef"%string)) Hv).
  - intros [= <- <-]. split; [reflexivity|]. split; [reflexivity | discriminate].
Qed.

(** X14: with [random_start], [_reset_sim] returns as soon as a candidate is
    accepted: when the loop rejects each candidate of [rejected] in the state
    that the candidates before it have left, and accepts the next one, the
    simulator is left in the state of that candidate, whatever draws would
    follow. *)
Theorem reset_sim_first_accepted (M : Simulator) (q2t : array4 -> array4x4)
    (self : LarccEnv) (s : sim) (rejected : list ndarray) (c : ndarray)
    (rest : list ndarray) :
  random_start self = true ->
  (forall pre c' post,
     rejected = pre ++ c' :: post ->
     ~ reset_accepts q2t self (fold_left reset_candidate pre (restore_initial s)) c') ->
  reset_accepts q2t self (fold_left reset_candidate rejected (restore_initial s)) c ->
  _reset_sim q2t self s (rejected ++ c :: rest)
  = Some (Ok true,
          reset_candidate (fold_left reset_candidate rejected (restore_initial s)) c).
Proof.
  intros Hrs Hrej Hacc. now apply reset_sim_first.
Qed.

(** The store simulator on two candidates, with the table of the
    constructor: an end effector at x = 3 is rejected, one at
    (0.1, 0.16, 1) is accepted. *)
Lemma store_candidate_rejected (rs : bool) (dt k_p k_o : R) (s : store_sim) :
  ~ reset_accepts utils.quaternion_to_transformation_matrix (__init__ rs dt k_p k_o) s
      [3; 0; 0; 0; 0; 0].
Proof.
  intros [Hv _].
  change (validate_initial_qpos utils.quaternion_to_transformation_matrix
            (__init__ rs dt k_p k_o) (pose_array (mkPose (Array3 3 0 0) (Array4 1 0 0 0)))
          = Ok true) in Hv.
  apply validate_initial_qpos_true_in_box in Hv.
  unfold in_workspace_box in Hv; simpl in Hv. lra.
Qed.

Lemma store_candidate_accepted (rs : bool) (dt k_p k_o : R) (s : store_sim) :
  reset_accepts utils.quaternion_to_transformation_matrix (__init__ rs dt k_p k_o) s
    [0.1; 0.16; 1; 0; 0; 0].
Proof.
  split.
  - change (validate_initial_qpos utils.quaternion_to_transformation_matrix
              (__init__ rs dt k_p k_o)
              (pose_array (mkPose (Array3 0.1 0.16 1) (Array4 1 0 0 0))) = Ok true).
    apply validate_initial_qpos_accepts_outside_cone.
    + unfold in_workspace_box; simpl; lra.
    + unfold points_forward_and_down, z_axis_of, utils.quaternion_to_transformation_matrix,
        dot_mv, dot4; simpl.
      rewrite sin_neg, sin_PI6. lra.
  - apply robot_in_table_false_iff. unfold link_names.
    repeat (apply Forall_cons; [simpl; lra|]). apply Forall_nil.
Qed.

Lemma store_only_rejected (rs : bool) (dt k_p k_o : R) (s : store_sim) :
  forall pre c' post,
    [[3; 0; 0; 0; 0; 0]] = pre ++ c' :: post ->
    ~ reset_accepts utils.quaternion_to_transformation_matrix (__init__ rs dt k_p k_o)
        (fold_left reset_candidate pre (restore_initial s)) c'.
Proof.
  intros pre c' post E.
  destruct pre as [|c0 pre].
  - injection E as <- _. apply store_candidate_rejected.
  - destruct pre; discriminate.
Qed.

Lemma store_reset_example :
  _reset_sim utils.quaternion_to_transformation_matrix (__init__ true 0.02 0.5 0.25)
    (mkStoreSim (fun _ => 0) []) [[3; 0; 0; 0; 0; 0]; [0.1; 0.16; 1; 0; 0; 0]]
  = Some (Ok true, mkStoreSim (fun _ => 0) [0.1; 0.16; 1; 0; 0; 0]).
Proof.
  exact (reset_sim_first (M:=store_simulator) utils.quaternion_to_transformation_matrix
           (__init__ true 0.02 0.5 0.25) (mkStoreSim (fun _ => 0) [])
           [[3; 0; 0; 0; 0; 0]] [0.1; 0.16; 1; 0; 0; 0] [] eq_refl
           (store_only_rejected true 0.02 0.5 0.25 _)
           (store_candidate_accepted true 0.02 0.5 0.25 _)).
Qed.

Lemma reset_sim_returns_witness :
  let self := __init__ true 0.02 0.5 0.25 in
  let s := mkStoreSim (fun _ => 0) [] in
  let s' := mkStoreSim (fun _ => 0) [0.1; 0.16; 1; 0; 0; 0] in
  let draws := [[3; 0; 0; 0; 0; 0]; [0.1; 0.16; 1; 0; 0; 0]] in
  _reset_sim utils.quaternion_to_transformation_matrix self s draws = Some (Ok true, s')
  /\ validate_initial_qpos utils.quaternion_to_transformation_matrix self (get_eef s')
     = Ok true
  /\ in_workspace_box self (xpos s' "eef"%string)
  /\ Forall (fun name => a3_2 (table_size self) <= a3_2 (xpos s' name)) link_names.
Proof.
  intros self s s' draws.
  split; [exact store_reset_example|].
  exact (proj2 (proj2 (reset_sim_returns store_simulator
                         utils.quaternion_to_transformation_matrix self s s' draws (Ok true)
                         store_reset_example)) eq_refl).
Defined.

Lemma reset_sim_first_accepted_witness :
  let self := __init__ true 0.02 0.5 0.25 in
  let s := mkStoreSim (fun _ => 0) [] in
  random_start self = true
  /\ reset_accepts utils.quaternion_to_transformation_matrix self
       (fold_left reset_candidate [[3; 0; 0; 0; 0; 0]] (restore_initial s))
       [0.1; 0.16; 1; 0; 0; 0]
  /\ _reset_sim utils.quaternion_to_transformation_matrix self s
       ([[3; 0; 0; 0; 0; 0]] ++ [0.1; 0.16; 1; 0; 0; 0] :: [[0; 0; 0; 0; 0; 0]])
     = Some (Ok true,
             reset_candidate
               (fold_left reset_candidate [[3; 0; 0; 0; 0; 0]] (restore_initial s))
               [0.1; 0.16; 1; 0; 0; 0]).
Proof.
  intros self s.
  split; [reflexivity|].
  split; [apply store_candidate_accepted|].
  exact (reset_sim_first_accepted store_simulator utils.quaternion_to_transformation_matrix
           self s [[3; 0; 0; 0; 0; 0]] [0.1; 0.16; 1; 0; 0; 0] [[0; 0; 0; 0; 0; 0]]
           eq_refl (store_only_rejected true 0.02 0.5 0.25 s)
           (store_candidate_accepted true 0.02 0.5 0.25 _)).
Defined.

(** ** The sampler and the validator together *)

(** X15: a goal that [_sample_goal] returns, for an object made by the
    constructor, is an array that [validate_initial_qpos] of the same object
    answers [False] on. *)
Theorem sampled_goal_is_not_a_valid_start (pd : ndarray -> ndarray -> R) (Info : Type)
    (q2t : array4 -> array4x4) (e2q : R -> R -> R -> array4)
    (rs : bool) (dt k_p k_o : R) (cs : list (call Info))
    (u0 u1 u2 : R) (draws : list (R * R * R)) (pose : ndarray) :
  0 <= u0 < 1 -> 0 <= u1 < 1 -> 0 <= u2 < 1 ->
  _sample_goal q2t e2q (run pd Info (__init__ rs dt k_p k_o) cs) u0 u1 u2 draws = Some pose ->
  validate_initial_qpos q2t (run pd Info (__init__ rs dt k_p k_o) cs) pose = Ok false.
Proof.
  intros H0 H1 H2 Hpose.
  exact (validate_initial_qpos_rejects_sampled_goal pd Info q2t e2q rs dt k_p k_o cs
           u0 u1 u2 draws pose H0 H1 H2 Hpose).
Qed.

Lemma sampled_goal_is_not_a_valid_start_witness :
  let self := __init__ false 0.02 0.5 0.25 in
  let pose := np.concatenate (sample_goal_pos self 0 0.5 0.25)
                (utils.euler_to_quaternion (2 * atan 2) 0 0) in
  (0 <= 0 < 1 /\ 0 <= 0.5 < 1 /\ 0 <= 0.25 < 1)
  /\ _sample_goal utils.quaternion_to_transformation_matrix utils.euler_to_quaternion
       self 0 0.5 0.25 [(0, 0, 0); (2 * atan 2, 0, 0)] = Some pose
  /\ validate_initial_qpos utils.quaternion_to_transformation_matrix self pose = Ok false.
Proof.
  intros self pose.
  assert (H0 : 0 <= 0 < 1) by lra.
  assert (H1 : 0 <= 0.5 < 1) by lra.
  assert (H2 : 0 <= 0.25 < 1) by lra.
  split; [now repeat split|]. split; [exact sample_goal_example|].
  exact (sampled_goal_is_not_a_valid_start utils.point_distance unit
           utils.quaternion_to_transformation_matrix utils.euler_to_quaternion
           false 0.02 0.5 0.25 [] 0 0.5 0.25 [(0, 0, 0); (2 * atan 2, 0, 0)] pose
           H0 H1 H2 sample_goal_example).
Defined.

(** ** The position term at its bounds *)

(** X16: the position term that a call appends is 1 minus the distance while
    the distance is between 0 and 2, and stays at -1 for every distance of 2
    or more. *)
Theorem compute_reward_position_term (pd : ndarray -> ndarray -> R) (Info : Type)
    (self : LarccEnv) (achieved desired : Pose) (info : Info) :
  let d := pd (position_array desired) (position_array achieved) in
  let after := snd (compute_reward pd self (pose_array achieved) (pose_array desired) info) in
  (0 <= d <= 2 -> pos_rewards after = pos_rewards self ++ [1 - d])
  /\ (2 <= d -> pos_rewards after = pos_rewards self ++ [-1]).
Proof.
  intros d after. subst after. rewrite compute_reward_on_poses. cbn [snd].
  destruct (with_rewards_fields self (pos_term pd achieved desired)
              (spec_quat_reward achieved desired)
              (bonus_term self (pos_term pd achieved desired)
                 (spec_quat_reward achieved desired))) as (-> & _).
  unfold pos_term. fold d. unfold np.clip, Rmin, Rmax.
  split; intros Hd; do 2 f_equal;
    destruct (Rle_dec (1 - d) (-1)); destruct (Rle_dec _ 1); lra.
Qed.

Lemma compute_reward_position_term_witness :
  let self := __init__ false 0.02 0.5 0.25 in
  let achieved := mkPose (Array3 0.1 0.16 1) (Array4 1 0 0 0) in
  let desired := mkPose (Array3 0.1 0.16 1) (Array4 0 1 0 0) in
  let d := utils.point_distance (position_array desired) (position_array achieved) in
  0 <= d <= 2
  /\ pos_rewards (snd (compute_reward utils.point_distance self (pose_array achieved)
                         (pose_array desired) tt)) = pos_rewards self ++ [1 - d].
Proof.
  intros self achieved desired d.
  assert (Hd : 0 <= d <= 2).
  { change d with (utils.point_distance (position_array achieved) (position_array achieved)).
    rewrite (point_distance_same achieved). lra. }
  split; [exact Hd|].
  exact (proj1 (compute_reward_position_term utils.point_distance unit self achieved
                  desired tt) Hd).
Defined.
